(** * services/geminiService.ts: a shallow embedding and its contract

    The module adapts the application's conversation history to the
    provider's request format, opens a streamed generation and re-yields
    the chunks it receives.  The embedding follows the source function by
    function:

    - [buildGeminiHistory] on array contents, and [Heap.buildGeminiHistory]
      on a store of arrays (the copy, the in-place [shift], the fresh
      array built by [map]);
    - [getAIClient], [getChatResponseStream] and
      [getDeepDiveResponseStream] in a small effect monad [Eff] with
      exceptions, [try]/[catch], generator [yield] and a trace of the
      reads and provider calls performed. *)

From Stdlib Require Import Ascii.
From stdpp Require Import base option list strings gmap.

(** ** Data model *)

(** Modelled from the spec: [Author] and [Message] are declared in
    [../types], which is not part of the sources; the spec gives a turn as
    [{ author: USER | AI, content: text }]. *)
Inductive Author := USER | AI.

Global Instance Author_eq_dec : EqDecision Author.
Proof. solve_decision. Defined.

Record Message := { author : Author; content : string }.

(** A [Part] of the provider's request format: a text part [{ text }] or
    an inline payload [{ inlineData: { data, mimeType } }].  [data] is
    [None] where the source would store [undefined]. *)
Inductive Part :=
| TextPart (text : string)
| InlineDataPart (data : option string) (mimeType : string).

(** A turn in the provider's format, [{ role, parts }]; the role is the
    string literal the source writes. *)
Record Content := { role : string; parts : list Part }.

Global Instance Part_eq_dec : EqDecision Part.
Proof. solve_decision. Defined.

Global Instance Content_eq_dec : EqDecision Content.
Proof. solve_decision. Defined.

(** ** The history adapter *)

(** [Array.prototype.shift]: the array without its first element (the
    removed element, which the source discards, is not returned here). *)
Definition shift {A : Type} (l : list A) : list A := tail l.

(** The callback of [history.map] in [buildGeminiHistory]. *)
Definition toContent (msg : Message) : Content :=
  {| role := if decide (author msg = USER) then "user" else "model";
     parts := [TextPart (content msg)] |}.

(** [buildGeminiHistory(messages)], on the contents of the arrays. *)
Definition buildGeminiHistory (messages : list Message) : list Content :=
  let history := messages in
  let history :=
    if bool_decide (0 < length history)
       && bool_decide (author <$> history !! 0 = Some AI)
    then shift history
    else history in
  toContent <$> history.

(** ** The history adapter on a store of arrays

    [messages] is a reference to the caller's array.  The source copies
    it ([[...messages]]), mutates the copy ([shift]) and returns the fresh
    array [map] builds.  Arrays live in a store indexed by location; an
    operation on a location that holds no array is [None] (it cannot
    happen in the source, where a reference is always live). *)
Module Heap.

(** A location no array of the store occupies. *)
Definition fresh_loc {V : Type} (h : gmap nat V) : nat :=
  fresh (dom h).

(** [[...a]]: a new array with the elements of [a]. *)
Definition spread (a : nat) (h : gmap nat (list Message))
  : option (nat * gmap nat (list Message)) :=
  l ← h !! a;
  Some (fresh_loc h, <[fresh_loc h := l]> h).

(** [a.shift()]: removes the first element of [a] in place. *)
Definition shift_in_place (a : nat) (h : gmap nat (list Message))
  : option (gmap nat (list Message)) :=
  l ← h !! a;
  Some (<[a := shift l]> h).

(** The state of the two stores after the call, and the reference the
    call returns (into the store of provider-format arrays). *)
Record Result := { returned : nat; messages_after : gmap nat (list Message);
                   contents_after : gmap nat (list Content) }.

Definition buildGeminiHistory (messages : nat)
    (h : gmap nat (list Message)) (g : gmap nat (list Content))
  : option Result :=
  '(history, h1) ← spread messages h;
  l ← h1 !! history;
  h2 ← (if bool_decide (0 < length l)
           && bool_decide (author <$> l !! 0 = Some AI)
        then shift_in_place history h1
        else Some h1);
  l' ← h2 !! history;
  let r := fresh_loc g in
  Some {| returned := r; messages_after := h2;
          contents_after := <[r := toContent <$> l']> g |}.

(** The variant without the copy, for contrast: [shift] applied to the
    caller's own array. *)
Definition buildGeminiHistory_no_copy (messages : nat)
    (h : gmap nat (list Message)) (g : gmap nat (list Content))
  : option Result :=
  l ← h !! messages;
  h2 ← (if bool_decide (0 < length l)
           && bool_decide (author <$> l !! 0 = Some AI)
        then shift_in_place messages h
        else Some h);
  l' ← h2 !! messages;
  let r := fresh_loc g in
  Some {| returned := r; messages_after := h2;
          contents_after := <[r := toContent <$> l']> g |}.

End Heap.

(** ** JavaScript values used by the service *)

(** Truthiness of a value that is a string, [undefined] or [null]
    ([None]): the empty string and the absent value are falsy. *)
Definition truthy (v : option string) : bool :=
  match v with
  | Some s => negb (bool_decide (s = ""))
  | None => false
  end.

(** [a || b] on such values. *)
Definition js_or (a b : option string) : option string :=
  if truthy a then a else b.

(** [s.split(',')]: the pieces of [s] between commas; never empty. *)
Fixpoint split_comma (s : string) : list string :=
  match s with
  | EmptyString => [""]
  | String c s' =>
      if bool_decide (c = ","%char) then "" :: split_comma s'
      else match split_comma s' with
           | piece :: pieces => String c piece :: pieces
           | [] => [String c ""]
           end
  end.

(** ** The provider's types ([@google/genai]) *)

(** Modelled from the spec: the provider's types are declared by its
    library, which is not part of the sources; they are given here as far
    as the source reads or builds them.  A chunk carries its text and,
    through [candidates?.[0]?.groundingMetadata?.groundingChunks], an
    optional list of citation entries.  Every entry is taken to carry its
    [web] record, as the source's unguarded [chunk.web.uri] does; the
    [uri] and the [title] in it may each be absent. *)
Module GenAI.

Record GroundingChunkWeb := { uri : option string; title : option string }.

Record GroundingChunk := { web : GroundingChunkWeb }.

Record GroundingMetadata := { groundingChunks : option (list GroundingChunk) }.

Record Candidate := { groundingMetadata : option GroundingMetadata }.

Record GenerateContentResponse :=
  { text : string; candidates : option (list Candidate) }.

(** [new GoogleGenAI({ apiKey })]. *)
Record GoogleGenAI := { apiKey : string }.

Inductive Tool := googleSearch.

(** The argument of [chats.create]. *)
Record ChatParameters :=
  { chat_model : string;
    history : list Content;
    chat_systemInstruction : string;
    tools : list Tool }.

(** The [Chat] object: the client and the parameters it was made from. *)
Record Chat := { chat_client : GoogleGenAI; chat_parameters : ChatParameters }.

(** The argument of [models.generateContentStream]. *)
Record GenerateContentParameters :=
  { model : string;
    contents : list Content;
    systemInstruction : string;
    thinkingBudget : Z }.

End GenAI.

(** What this module yields: [{ text, sources }].  A grounding source is
    the object literal [{ uri, title }] the source builds from an entry;
    its fields are whatever the entry held. *)
Record GroundingSource := { uri : option string; title : option string }.

Record Element := { text : string; sources : list GroundingSource }.

(** A [File] as far as the source uses it: its MIME type [file.type] and
    the string [FileReader.readAsDataURL] leaves in [reader.result]. *)
Record File := { type : string; dataURL : string }.

(** ** Exceptions, effects and the provider *)

Inductive exn :=
| Error (message : string)
    (** [new Error(message)], thrown by this module *)
| ProviderError (detail : string)
    (** a throw or rejection of the provider client *).

(** The trace of what a run does outside the module's own memory. *)
Inductive Event :=
| ReadEnv (name : string)               (** [process.env.NAME] *)
| ReadLocalStorage (key : string)       (** [localStorage.getItem(key)] *)
| NewClient (apiKey : string)           (** [new GoogleGenAI] *)
| ChatsCreate (p : GenAI.ChatParameters)
| SendMessageStream (message : string)
| GenerateContentStream (req : GenAI.GenerateContentParameters)
| ConsoleError (label : string) (e : exn).

(** The calls that reach the provider. *)
Definition is_provider_call (ev : Event) : bool :=
  match ev with
  | ChatsCreate _ | SendMessageStream _ | GenerateContentStream _ => true
  | _ => false
  end.

(** A provider stream: the chunks it delivers and then how it ends, by
    closing ([None]) or by throwing ([Some e]). *)
Record Stream :=
  { chunks : list GenAI.GenerateContentResponse; failure : option exn }.

(** The provider client's behaviour, an external service. *)
Record Provider :=
  { chats_create :
      GenAI.GoogleGenAI → GenAI.ChatParameters → exn + GenAI.Chat;
    sendMessageStream : GenAI.Chat → string → exn + Stream;
    generateContentStream :
      GenAI.GoogleGenAI → GenAI.GenerateContentParameters → exn + Stream }.

(** The memory the module runs in: its variable [ai], the process
    environment, the browser's local storage, and the trace so far. *)
Record State :=
  { ai : option GenAI.GoogleGenAI;
    process_env : gmap string string;
    localStorage : gmap string string;
    trace : list Event }.

(** ** The effect monad: state, exceptions and generator output *)

Record Outcome (A : Type) :=
  { yielded : list Element; result : exn + A; final : State }.
Arguments yielded {A} _.
Arguments result {A} _.
Arguments final {A} _.

Definition Eff (A : Type) : Type := State → Outcome A.

Definition ret {A : Type} (a : A) : Eff A :=
  λ s, {| yielded := []; result := inr a; final := s |}.

Definition bind {A B : Type} (m : Eff A) (k : A → Eff B) : Eff B :=
  λ s,
    let o := m s in
    match result o with
    | inl e => {| yielded := yielded o; result := inl e; final := final o |}
    | inr a =>
        let o' := k a (final o) in
        {| yielded := yielded o ++ yielded o';
           result := result o'; final := final o' |}
    end.

Notation "x ←← m ; k" := (bind m (λ x, k))
  (at level 100, m at next level, right associativity, only parsing).
Notation "m ;;; k" := (bind m (λ _, k))
  (at level 100, right associativity, only parsing).

Definition throw {A : Type} (e : exn) : Eff A :=
  λ s, {| yielded := []; result := inl e; final := s |}.

(** [try { body } catch (error) { handler }]: what [body] yielded and
    did to the state before it threw stays. *)
Definition try_catch {A : Type} (body : Eff A) (handler : exn → Eff A) : Eff A :=
  λ s,
    let o := body s in
    match result o with
    | inr a => o
    | inl e =>
        let o' := handler e (final o) in
        {| yielded := yielded o ++ yielded o';
           result := result o'; final := final o' |}
    end.

(** [yield v]. *)
Definition yield (v : Element) : Eff unit :=
  λ s, {| yielded := [v]; result := inr (); final := s |}.

Definition emit (ev : Event) : Eff unit :=
  λ s, {| yielded := []; result := inr ();
          final := {| ai := ai s; process_env := process_env s;
                      localStorage := localStorage s;
                      trace := trace s ++ [ev] |} |}.

Definition get_ai : Eff (option GenAI.GoogleGenAI) :=
  λ s, {| yielded := []; result := inr (ai s); final := s |}.

Definition set_ai (c : GenAI.GoogleGenAI) : Eff unit :=
  λ s, {| yielded := []; result := inr ();
          final := {| ai := Some c; process_env := process_env s;
                      localStorage := localStorage s; trace := trace s |} |}.

Definition read_env (name : string) : Eff (option string) :=
  emit (ReadEnv name) ;;;
  λ s, {| yielded := []; result := inr (process_env s !! name); final := s |}.

Definition localStorage_getItem (key : string) : Eff (option string) :=
  emit (ReadLocalStorage key) ;;;
  λ s, {| yielded := []; result := inr (localStorage s !! key); final := s |}.

(** A result of the provider, thrown when it is a failure. *)
Definition lift_result {A : Type} (r : exn + A) : Eff A :=
  match r with
  | inl e => throw e
  | inr a => ret a
  end.

(** [for await (const chunk of stream) body]: [body] on each chunk the
    stream delivers, and then the stream's own end. *)
Fixpoint for_await_chunks (cs : list GenAI.GenerateContentResponse)
    (fail : option exn) (body : GenAI.GenerateContentResponse → Eff unit)
  : Eff unit :=
  match cs with
  | [] => match fail with
          | None => ret ()
          | Some e => throw e
          end
  | c :: cs' => body c ;;; for_await_chunks cs' fail body
  end.

Definition for_await (stream : Stream)
    (body : GenAI.GenerateContentResponse → Eff unit) : Eff unit :=
  for_await_chunks (chunks stream) (failure stream) body.

(** ** The service *)

Section Service.

(** [SYSTEM_PROMPT] is imported from [../constants], which is not part of
    the sources; the provider is the remote service. *)
Variable SYSTEM_PROMPT : string.
Variable provider : Provider.

(** [getAIClient()].  The [match] on [apiKey] is the test [!apiKey]: the
    key is absent, or it is the empty string. *)
Definition getAIClient : Eff GenAI.GoogleGenAI :=
  cached ←← get_ai;
  match cached with
  | Some client => ret client
  | None =>
      fromEnv ←← read_env "API_KEY";
      apiKey ←← (if truthy fromEnv then ret fromEnv
                 else localStorage_getItem "GEMINI_API_KEY");
      match apiKey with
      | Some key =>
          if bool_decide (key = "")
          then throw (Error "API Key not found. Please ensure it is set in environment or localStorage.")
          else
            let client := {| GenAI.apiKey := key |} in
            emit (NewClient key) ;;;
            set_ai client ;;;
            ret client
      | None =>
          throw (Error "API Key not found. Please ensure it is set in environment or localStorage.")
      end
  end.

(** [fileToGenerativePart(file)]: the part of the data URL after its
    first comma, with the file's MIME type. *)
Definition fileToGenerativePart (file : File) : Part :=
  InlineDataPart (split_comma (dataURL file) !! 1) (type file).

(** The [sources] computed for one chunk of the conversational stream. *)
Definition chunk_sources (chunk : GenAI.GenerateContentResponse)
  : list GroundingSource :=
  let groundingChunks :=
    cs ← GenAI.candidates chunk;
    c ← cs !! 0;
    md ← GenAI.groundingMetadata c;
    GenAI.groundingChunks md in
  default []
    ((λ gcs,
        List.filter (λ source, truthy (uri source) && truthy (title source))
          ((λ chunk, {| uri := GenAI.uri (GenAI.web chunk);
                        title := GenAI.title (GenAI.web chunk) |}) <$> gcs))
       <$> groundingChunks).

Definition chat_placeholder : Element :=
  {| text := "I'm sorry, I encountered an error. Please try again.";
     sources := [] |}.

(** The argument [getChatResponseStream] passes to [chats.create]. *)
Definition chat_parameters (history : list Message) : GenAI.ChatParameters :=
  {| GenAI.chat_model := "gemini-2.5-flash";
     GenAI.history := buildGeminiHistory history;
     GenAI.chat_systemInstruction := SYSTEM_PROMPT;
     GenAI.tools := [GenAI.googleSearch] |}.

(** [getChatResponseStream(history, newMessage)], run until the generator
    is exhausted. *)
Definition getChatResponseStream (history : list Message) (newMessage : string)
  : Eff unit :=
  let params := chat_parameters history in
  try_catch
    (aiClient ←← getAIClient;
     chat ←← (emit (ChatsCreate params) ;;;
              lift_result (chats_create provider aiClient params));
     stream ←← (emit (SendMessageStream newMessage) ;;;
                lift_result (sendMessageStream provider chat newMessage));
     for_await stream (λ chunk,
       let sources := chunk_sources chunk in
       yield {| text := GenAI.text chunk; sources := sources |}))
    (λ error,
       emit (ConsoleError "Error getting chat response:" error) ;;;
       yield chat_placeholder).

Definition default_prompt : string :=
  "Please provide a summary of the attached document.".

(** The array [userParts] after the two [push]es. *)
Definition userParts (newMessage : string) (file : option File) : list Part :=
  let userParts := [] in
  let userParts :=
    match file with
    | Some f => userParts ++ [fileToGenerativePart f]
    | None => userParts
    end in
  userParts
    ++ [TextPart (if bool_decide (newMessage = "") then default_prompt
                  else newMessage)].

(** The request [req] of the deep-dive flow. *)
Definition deep_dive_request (newMessage : string) (file : option File)
  : GenAI.GenerateContentParameters :=
  {| GenAI.model := "gemini-2.5-pro";
     GenAI.contents :=
       [{| role := "user"; parts := userParts newMessage file |}];
     GenAI.systemInstruction := SYSTEM_PROMPT;
     GenAI.thinkingBudget := 32768 |}.

Definition deep_dive_placeholder : Element :=
  {| text := "I'm sorry, I encountered an error during the deep dive analysis. Please try again.";
     sources := [] |}.

(** [getDeepDiveResponseStream(newMessage, file)], run until the
    generator is exhausted. *)
Definition getDeepDiveResponseStream (newMessage : string) (file : option File)
  : Eff unit :=
  let req := deep_dive_request newMessage file in
  try_catch
    (aiClient ←← getAIClient;
     stream ←← (emit (GenerateContentStream req) ;;;
                lift_result (generateContentStream provider aiClient req));
     for_await stream (λ chunk,
       yield {| text := GenAI.text chunk; sources := [] |}))
    (λ error,
       emit (ConsoleError "Error getting deep dive response:" error) ;;;
       yield deep_dive_placeholder).

End Service.

(** ** The file read before the deep-dive request

    [fileToGenerativePart] awaits a promise that only the [onloadend]
    handler of a [FileReader] resolves, and the deep-dive flow awaits it
    before its [try] block.  What the browser's reader does with the file
    is an input of the flow. *)
Inductive ReaderOutcome :=
| Loaded (result : string)
    (** the read ends with the data URL in [reader.result] *)
| LoadFailed
    (** the read ends with [reader.result] null: the handler throws on
        [split] and the promise is never settled *)
| ReaderThrew (e : exn)
    (** [new FileReader()] or [readAsDataURL] throws inside the promise's
        executor: the promise is rejected with [e] *).

(** A file to attach: its MIME type and what reading it gives. *)
Record Attachment := { attachment_type : string; reading : ReaderOutcome }.

(** A generator driven until it ends, or stuck on an [await] forever
    in the state it had reached. *)
Inductive Run :=
| Completed (o : Outcome unit)
| Pending (s : State).

(** [getDeepDiveResponseStream(newMessage, file)] with the file read as
    the source has it, before the [try]: a rejected read is thrown to the
    caller, a read that never settles leaves the generator pending, and a
    read that delivers its result is followed by the rest of the flow. *)
Definition getDeepDiveResponseStream_reading (SYSTEM_PROMPT : string)
    (provider : Provider) (newMessage : string) (file : option Attachment)
    (s : State) : Run :=
  match file with
  | None =>
      Completed
        (getDeepDiveResponseStream SYSTEM_PROMPT provider newMessage None s)
  | Some attached =>
      match reading attached with
      | Loaded result =>
          Completed
            (getDeepDiveResponseStream SYSTEM_PROMPT provider newMessage
               (Some {| type := attachment_type attached;
                        dataURL := result |}) s)
      | LoadFailed => Pending s
      | ReaderThrew e =>
          Completed {| yielded := []; result := inl e; final := s |}
      end
  end.

(** ** Sample data *)

Definition greeting : Message :=
  {| author := AI; content := "Hello, how can I help?" |}.
Definition question : Message :=
  {| author := USER; content := "What is allyship?" |}.
Definition answer : Message :=
  {| author := AI; content := "Allyship is ..." |}.

Definition no_credentials : State :=
  {| ai := None; process_env := ∅; localStorage := ∅; trace := [] |}.

Definition stored_key : State :=
  {| ai := None; process_env := ∅;
     localStorage := {[ "GEMINI_API_KEY" := "k-123" ]}; trace := [] |}.

Definition web_chunk (u t : option string) : GenAI.GroundingChunk :=
  {| GenAI.web := {| GenAI.uri := u; GenAI.title := t |} |}.

Definition cited (t : string) (gcs : list GenAI.GroundingChunk)
  : GenAI.GenerateContentResponse :=
  {| GenAI.text := t;
     GenAI.candidates :=
       Some [{| GenAI.groundingMetadata :=
                  Some {| GenAI.groundingChunks := Some gcs |} |}] |}.

(** A provider whose streams deliver [cs] and then end as [fail] says. *)
Definition streaming (cs : list GenAI.GenerateContentResponse)
    (fail : option exn) : Provider :=
  {| chats_create :=
       λ c p, inr {| GenAI.chat_client := c; GenAI.chat_parameters := p |};
     sendMessageStream := λ _ _, inr {| chunks := cs; failure := fail |};
     generateContentStream := λ _ _, inr {| chunks := cs; failure := fail |} |}.

Definition sample_file : File :=
  {| type := "application/pdf";
     dataURL := "data:application/pdf;base64,JVBERi0xLjQ=" |}.

(** A key in the environment and another one in local storage. *)
Definition both_keys : State :=
  {| ai := None; process_env := {[ "API_KEY" := "env-key" ]};
     localStorage := {[ "GEMINI_API_KEY" := "stored-key" ]}; trace := [] |}.

(** The environment variable set to the empty string. *)
Definition empty_env_key : State :=
  {| ai := None; process_env := {[ "API_KEY" := "" ]};
     localStorage := {[ "GEMINI_API_KEY" := "stored-key" ]}; trace := [] |}.

(** A provider that refuses every call with [e]. *)
Definition refusing (e : exn) : Provider :=
  {| chats_create := λ _ _, inl e;
     sendMessageStream := λ _ _, inl e;
     generateContentStream := λ _ _, inl e |}.

(** ** Vocabulary of the statements *)

(** [s] after the events [evs]. *)
Definition add_trace (evs : list Event) (s : State) : State :=
  {| ai := ai s; process_env := process_env s;
     localStorage := localStorage s; trace := trace s ++ evs |}.

(** [s] with [client] stored in [ai]. *)
Definition with_client (client : GenAI.GoogleGenAI) (s : State) : State :=
  {| ai := Some client; process_env := process_env s;
     localStorage := localStorage s; trace := trace s |}.

(** The credential [getAIClient] resolves in [s], and the reads it takes:
    local storage is consulted only when the environment gives nothing. *)
Definition credential (s : State) : option string :=
  js_or (process_env s !! "API_KEY") (localStorage s !! "GEMINI_API_KEY").

Definition resolve_reads (s : State) : list Event :=
  if truthy (process_env s !! "API_KEY") then [ReadEnv "API_KEY"]
  else [ReadEnv "API_KEY"; ReadLocalStorage "GEMINI_API_KEY"].

Definition missing_key_message : string :=
  "API Key not found. Please ensure it is set in environment or localStorage.".

(** A string without a comma. *)
Fixpoint comma_free (s : string) : bool :=
  match s with
  | EmptyString => true
  | String c s' => negb (bool_decide (c = ","%char)) && comma_free s'
  end.

(** The citation entries of a chunk, as the flow reaches them. *)
Definition citation_metadata (chunk : GenAI.GenerateContentResponse)
  : option (list GenAI.GroundingChunk) :=
  cs ← GenAI.candidates chunk;
  c ← cs !! 0;
  md ← GenAI.groundingMetadata c;
  GenAI.groundingChunks md.

(** An entry with both a URI and a title, neither of them empty. *)
Definition has_uri_and_title (g : GenAI.GroundingChunk) : Prop :=
  match GenAI.uri (GenAI.web g), GenAI.title (GenAI.web g) with
  | Some u, Some t => u ≠ "" ∧ t ≠ ""
  | _, _ => False
  end.

Global Instance has_uri_and_title_dec g : Decision (has_uri_and_title g).
Proof.
  unfold has_uri_and_title.
  destruct (GenAI.uri (GenAI.web g)), (GenAI.title (GenAI.web g)); apply _.
Defined.

(** The source an entry stands for. *)
Definition source_of (g : GenAI.GroundingChunk) : GroundingSource :=
  {| uri := GenAI.uri (GenAI.web g); title := GenAI.title (GenAI.web g) |}.

(** The element the conversational flow yields for a chunk. *)
Definition chat_element (chunk : GenAI.GenerateContentResponse) : Element :=
  {| text := GenAI.text chunk; sources := chunk_sources chunk |}.

(** The element the deep-dive flow yields for a chunk. *)
Definition deep_dive_element (chunk : GenAI.GenerateContentResponse) : Element :=
  {| text := GenAI.text chunk; sources := [] |}.

(** What a flow adds once its stream is open: the elements of the
    chunks, and the placeholder when the stream throws. *)
Definition stream_elements (f : GenAI.GenerateContentResponse → Element)
    (placeholder : Element) (stream : Stream) : list Element :=
  (f <$> chunks stream)
    ++ match failure stream with Some _ => [placeholder] | None => [] end.

Definition stream_events (label : string) (stream : Stream) : list Event :=
  match failure stream with
  | Some e => [ConsoleError label e]
  | None => []
  end.

(** Adjacent turns have different authors. *)
Fixpoint alternates (h : list Message) : bool :=
  match h with
  | [] => true
  | m1 :: rest =>
      match rest with
      | [] => true
      | m2 :: _ => negb (bool_decide (author m1 = author m2))
      end && alternates rest
  end.

(** Adjacent elements have different roles. *)
Fixpoint roles_alternate (cs : list Content) : bool :=
  match cs with
  | [] => true
  | c1 :: rest =>
      match rest with
      | [] => true
      | c2 :: _ => negb (bool_decide (role c1 = role c2))
      end && roles_alternate rest
  end.

(** [pieces.join(',')], the inverse of [split(',')]. *)
Fixpoint join_comma (pieces : list string) : string :=
  match pieces with
  | [] => ""
  | piece :: rest =>
      match rest with
      | [] => piece
      | _ :: _ => piece +:+ "," +:+ join_comma rest
      end
  end.

(** [localStorage.setItem("GEMINI_API_KEY", key)], as the application
    around the module may do between two calls. *)
Definition store_key (key : string) (s : State) : State :=
  {| ai := ai s; process_env := process_env s;
     localStorage := <["GEMINI_API_KEY" := key]> (localStorage s);
     trace := trace s |}.

(** The events a run from [before] to [after] added to the trace. *)
Definition added_events (before after : State) : list Event :=
  drop (length (trace before)) (trace after).

Definition is_text_part (p : Part) : bool :=
  match p with
  | TextPart _ => true
  | InlineDataPart _ _ => false
  end.

Definition is_console_error (ev : Event) : bool :=
  match ev with
  | ConsoleError _ _ => true
  | _ => false
  end.

(** The client in [ai], if any, was made from a non-empty key. *)
Definition cache_ok (s : State) : Prop :=
  ∀ client, ai s = Some client → GenAI.apiKey client ≠ "".

(** A source with a URI and a title, neither of them empty. *)
Definition well_cited (source : GroundingSource) : Prop :=
  ∃ u t, uri source = Some u ∧ title source = Some t ∧ u ≠ "" ∧ t ≠ "".

(** * Theorems *)

(** ** The history adapter *)

Lemma buildGeminiHistory_nil : buildGeminiHistory [] = [].
Proof. reflexivity. Qed.

Lemma buildGeminiHistory_cons_AI (m : Message) (rest : list Message) :
  author m = AI → buildGeminiHistory (m :: rest) = toContent <$> rest.
Proof.
  intros Hm. unfold buildGeminiHistory. simpl. rewrite Hm.
  rewrite bool_decide_eq_true_2 by done. reflexivity.
Qed.

Lemma buildGeminiHistory_cons_USER (m : Message) (rest : list Message) :
  author m = USER → buildGeminiHistory (m :: rest) = toContent <$> (m :: rest).
Proof.
  intros Hm. unfold buildGeminiHistory. simpl. rewrite Hm.
  rewrite bool_decide_eq_false_2 by congruence. reflexivity.
Qed.

Example buildGeminiHistory_greeting_first :
  buildGeminiHistory [greeting; question; answer]
  = [ {| role := "user"; parts := [TextPart "What is allyship?"] |};
      {| role := "model"; parts := [TextPart "Allyship is ..."] |} ].
Proof. reflexivity. Qed.

Example buildGeminiHistory_only_greeting : buildGeminiHistory [greeting] = [].
Proof. reflexivity. Qed.

Lemma role_toContent_user (msg : Message) :
  role (toContent msg) = "user" ↔ author msg = USER.
Proof.
  unfold toContent. simpl. destruct (decide (author msg = USER)); split;
    intros; done.
Qed.

(** ** The file adapter *)

Lemma split_comma_comma_free (s : string) :
  comma_free s = true → split_comma s = [s].
Proof.
  induction s as [|c s IH]; [reflexivity|]. simpl.
  intros [Hc Hs]%andb_true_iff. apply negb_true_iff in Hc.
  rewrite Hc, (IH Hs). reflexivity.
Qed.

Lemma split_comma_app (prefix rest : string) :
  comma_free prefix = true →
  split_comma (prefix +:+ "," +:+ rest) = prefix :: split_comma rest.
Proof.
  induction prefix as [|c prefix IH]; [reflexivity|]. simpl.
  intros [Hc Hs]%andb_true_iff. apply negb_true_iff in Hc.
  rewrite Hc. simpl in IH. rewrite (IH Hs). reflexivity.
Qed.

(** For a data URL [<header>,<payload>] with a comma in neither piece,
    the inline part holds the payload and the file's MIME type. *)
Lemma fileToGenerativePart_data_url (mime header payload : string) :
  comma_free header = true →
  comma_free payload = true →
  fileToGenerativePart {| type := mime; dataURL := header +:+ "," +:+ payload |}
  = InlineDataPart (Some payload) mime.
Proof.
  intros Hh Hp. unfold fileToGenerativePart. simpl.
  rewrite (split_comma_app header payload Hh), split_comma_comma_free by done.
  reflexivity.
Qed.

Example fileToGenerativePart_sample :
  fileToGenerativePart sample_file
  = InlineDataPart (Some "JVBERi0xLjQ=") "application/pdf".
Proof. reflexivity. Qed.

(** A string without a comma has no second piece. *)
Example fileToGenerativePart_no_comma :
  fileToGenerativePart {| type := "text/plain"; dataURL := "data:" |}
  = InlineDataPart None "text/plain".
Proof. reflexivity. Qed.

(** ** The effect monad *)

Lemma add_trace_app (evs evs' : list Event) (s : State) :
  add_trace evs' (add_trace evs s) = add_trace (evs ++ evs') s.
Proof. unfold add_trace. simpl. by rewrite app_assoc. Qed.

Lemma add_trace_nil (s : State) : add_trace [] s = s.
Proof. destruct s. unfold add_trace. simpl. by rewrite app_nil_r. Qed.

Lemma emit_eq (ev : Event) (s : State) :
  emit ev s = {| yielded := []; result := inr (); final := add_trace [ev] s |}.
Proof. reflexivity. Qed.

(** A loop whose body only yields delivers one element per chunk, leaves
    the state alone and ends as the stream does. *)
Lemma for_await_chunks_yield (f : GenAI.GenerateContentResponse → Element)
    (cs : list GenAI.GenerateContentResponse) (fail : option exn) (s : State) :
  for_await_chunks cs fail (λ chunk, yield (f chunk)) s
  = {| yielded := f <$> cs;
       result := match fail with None => inr () | Some e => inl e end;
       final := s |}.
Proof.
  induction cs as [|c cs IH]; simpl.
  - by destruct fail.
  - unfold bind. simpl. rewrite IH. simpl. by destruct fail.
Qed.

(** ** The client accessor *)

Lemma getAIClient_cached (s : State) (client : GenAI.GoogleGenAI) :
  ai s = Some client →
  getAIClient s = {| yielded := []; result := inr client; final := s |}.
Proof.
  intros Hai. unfold getAIClient, bind, get_ai. simpl. by rewrite Hai.
Qed.

Lemma getAIClient_missing (s : State) :
  ai s = None →
  truthy (credential s) = false →
  getAIClient s
  = {| yielded := []; result := inl (Error missing_key_message);
       final := add_trace (resolve_reads s) s |}.
Proof.
  intros Hai Hcred.
  unfold getAIClient, bind, get_ai, read_env, localStorage_getItem. simpl.
  rewrite Hai. simpl.
  unfold credential, js_or, resolve_reads in *.
  destruct (truthy (process_env s !! "API_KEY")) eqn:Henv; simpl.
  - destruct (process_env s !! "API_KEY") as [k|] eqn:Hk; [|done].
    simpl in *. congruence.
  - destruct (localStorage s !! "GEMINI_API_KEY") as [k|] eqn:Hk; simpl in *.
    + destruct (bool_decide (k = "")); [|done]. simpl.
      unfold add_trace. simpl. by rewrite <- app_assoc.
    + unfold add_trace. simpl. by rewrite <- app_assoc.
Qed.

Lemma getAIClient_resolved (s : State) (key : string) :
  ai s = None →
  credential s = Some key →
  key ≠ "" →
  getAIClient s
  = {| yielded := []; result := inr {| GenAI.apiKey := key |};
       final := with_client {| GenAI.apiKey := key |}
                  (add_trace (resolve_reads s ++ [NewClient key]) s) |}.
Proof.
  intros Hai Hcred Hkey.
  unfold getAIClient, bind, get_ai, read_env, localStorage_getItem. simpl.
  rewrite Hai. simpl.
  unfold credential, js_or, resolve_reads in *.
  destruct (truthy (process_env s !! "API_KEY")) eqn:Henv; simpl.
  - rewrite Hcred. rewrite bool_decide_eq_false_2 by done. simpl.
    unfold with_client, add_trace. simpl. by rewrite <- app_assoc.
  - rewrite Hcred. simpl. rewrite bool_decide_eq_false_2 by done. simpl.
    unfold with_client, add_trace. simpl. by rewrite <- !app_assoc.
Qed.

Lemma truthy_Some (v : option string) :
  truthy v = true → ∃ key, v = Some key ∧ key ≠ "".
Proof.
  destruct v as [key|]; simpl; [|done].
  intros H. exists key. split; [done|].
  intros ->. by rewrite bool_decide_eq_true_2 in H.
Qed.

Lemma truthy_Some_ne (key : string) : key ≠ "" → truthy (Some key) = true.
Proof. intros H. simpl. by rewrite bool_decide_eq_false_2. Qed.

(** The accessor is not a generator: it yields nothing. *)
Lemma getAIClient_yields_nothing (s : State) : yielded (getAIClient s) = [].
Proof.
  destruct (ai s) as [client|] eqn:Hai.
  - by rewrite (getAIClient_cached s client).
  - destruct (truthy (credential s)) eqn:Hcred.
    + destruct (truthy_Some _ Hcred) as (key & Hk & Hne).
      by rewrite (getAIClient_resolved s key).
    + by rewrite getAIClient_missing.
Qed.

(** The accessor only ever fails with the configuration error. *)
Lemma getAIClient_fails_only_on_missing_key (s : State) (e : exn) :
  result (getAIClient s) = inl e →
  e = Error missing_key_message ∧ ai s = None ∧ truthy (credential s) = false.
Proof.
  destruct (ai s) as [client|] eqn:Hai.
  - by rewrite (getAIClient_cached s client).
  - destruct (truthy (credential s)) eqn:Hcred.
    + destruct (truthy_Some _ Hcred) as (key & Hk & Hne).
      by rewrite (getAIClient_resolved s key).
    + rewrite getAIClient_missing by done. simpl. by intros [= <-].
Qed.

(** Resolving a credential reaches no provider. *)
Lemma resolve_reads_local (s : State) :
  forallb (λ ev, negb (is_provider_call ev)) (resolve_reads s) = true.
Proof. unfold resolve_reads. by destruct (truthy _). Qed.

(** ** The two flows, case by case *)

Section Flows.

Variable SYSTEM_PROMPT : string.
Variable provider : Provider.

Lemma getDeepDiveResponseStream_eq (newMessage : string) (file : option File)
    (s : State) :
  let req := deep_dive_request SYSTEM_PROMPT newMessage file in
  let label := "Error getting deep dive response:" in
  let s1 := final (getAIClient s) in
  getDeepDiveResponseStream SYSTEM_PROMPT provider newMessage file s
  = match result (getAIClient s) with
    | inl e =>
        {| yielded := [deep_dive_placeholder]; result := inr ();
           final := add_trace [ConsoleError label e] s1 |}
    | inr client =>
        match generateContentStream provider client req with
        | inl e =>
            {| yielded := [deep_dive_placeholder]; result := inr ();
               final := add_trace [GenerateContentStream req;
                                   ConsoleError label e] s1 |}
        | inr stream =>
            {| yielded :=
                 stream_elements deep_dive_element deep_dive_placeholder stream;
               result := inr ();
               final := add_trace (GenerateContentStream req
                                     :: stream_events label stream) s1 |}
        end
    end.
Proof.
  intros req label s1. subst s1.
  pose proof (getAIClient_yields_nothing s) as Hy.
  unfold getDeepDiveResponseStream, try_catch, bind. fold req.
  destruct (getAIClient s) as [ys r s1]. simpl in Hy. subst ys. simpl.
  destruct r as [e|client]; simpl; [done|].
  destruct (generateContentStream provider client req) as [e|stream]; simpl.
  { unfold add_trace. simpl. by rewrite <- app_assoc. }
  unfold for_await, stream_elements, stream_events.
  change (λ chunk, yield {| text := GenAI.text chunk; sources := [] |})
    with (λ chunk, yield (deep_dive_element chunk)).
  rewrite for_await_chunks_yield. simpl.
  destruct (failure stream) as [e|]; simpl.
  - unfold add_trace. simpl. by rewrite <- app_assoc.
  - by rewrite app_nil_r.
Qed.

Lemma getChatResponseStream_eq (history : list Message) (newMessage : string)
    (s : State) :
  let params := chat_parameters SYSTEM_PROMPT history in
  let label := "Error getting chat response:" in
  let s1 := final (getAIClient s) in
  getChatResponseStream SYSTEM_PROMPT provider history newMessage s
  = match result (getAIClient s) with
    | inl e =>
        {| yielded := [chat_placeholder]; result := inr ();
           final := add_trace [ConsoleError label e] s1 |}
    | inr client =>
        match chats_create provider client params with
        | inl e =>
            {| yielded := [chat_placeholder]; result := inr ();
               final := add_trace [ChatsCreate params;
                                   ConsoleError label e] s1 |}
        | inr chat =>
            match sendMessageStream provider chat newMessage with
            | inl e =>
                {| yielded := [chat_placeholder]; result := inr ();
                   final := add_trace [ChatsCreate params;
                                       SendMessageStream newMessage;
                                       ConsoleError label e] s1 |}
            | inr stream =>
                {| yielded :=
                     stream_elements chat_element chat_placeholder stream;
                   result := inr ();
                   final := add_trace (ChatsCreate params
                                         :: SendMessageStream newMessage
                                         :: stream_events label stream) s1 |}
            end
        end
    end.
Proof.
  intros params label s1. subst s1.
  pose proof (getAIClient_yields_nothing s) as Hy.
  unfold getChatResponseStream, try_catch, bind. fold params.
  destruct (getAIClient s) as [ys r s1]. simpl in Hy. subst ys. simpl.
  destruct r as [e|client]; simpl; [done|].
  destruct (chats_create provider client params) as [e|chat]; simpl.
  { unfold add_trace. simpl. by rewrite <- app_assoc. }
  destruct (sendMessageStream provider chat newMessage) as [e|stream]; simpl.
  { unfold add_trace. simpl. by rewrite <- !app_assoc. }
  unfold for_await, stream_elements, stream_events.
  change (λ chunk, yield {| text := GenAI.text chunk;
                             sources := chunk_sources chunk |})
    with (λ chunk, yield (chat_element chunk)).
  rewrite for_await_chunks_yield. simpl.
  destruct (failure stream) as [e|]; simpl.
  - unfold add_trace. simpl. by rewrite <- !app_assoc.
  - rewrite app_nil_r. unfold add_trace. simpl. by rewrite <- !app_assoc.
Qed.

End Flows.

(** Replaces each flow by its case analysis. *)
Ltac flow_cases :=
  rewrite ?getChatResponseStream_eq, ?getDeepDiveResponseStream_eq; cbv zeta.

(** * The contract of the history adapter *)

(** C1, as stated, fails: a history whose first two turns are both the
    assistant's is adapted to a list that is not empty and whose first
    element has role ['model']. *)
Lemma leading_assistant_twice_counterexample :
  author <$> head [greeting; answer; question] = Some AI
  ∧ buildGeminiHistory [greeting; answer; question]
    = [ {| role := "model"; parts := [TextPart "Allyship is ..."] |};
        {| role := "user"; parts := [TextPart "What is allyship?"] |} ]
  ∧ ¬ (role <$> head (buildGeminiHistory [greeting; answer; question])
         = Some "user"
       ∨ buildGeminiHistory [greeting; answer; question] = []).
Proof.
  split; [reflexivity|]. split; [reflexivity|].
  intros [H|H]; vm_compute in H; discriminate H.
Qed.

(** C1 (amended): for every history whose first turn [m] is the
    assistant's, [buildGeminiHistory] removes exactly that one turn and
    relabels the rest: the result has one element per remaining turn,
    element [i] holding as its only part the content of the [i]-th
    remaining turn, with role ['user'] when that turn is the user's and
    ['model'] otherwise.  So the result is empty if [m] was the only
    turn, and its first element has role ['user'] when the second turn
    is the user's, and role ['model'] when the second turn is again the
    assistant's. *)
Theorem buildGeminiHistory_leading_assistant (m : Message) (rest : list Message) :
  author m = AI →
  length (buildGeminiHistory (m :: rest)) = length rest
  ∧ (∀ i msg, rest !! i = Some msg →
       ∃ c, buildGeminiHistory (m :: rest) !! i = Some c
            ∧ parts c = [TextPart (content msg)]
            ∧ (author msg = USER → role c = "user")
            ∧ (author msg ≠ USER → role c = "model"))
  ∧ (rest = [] → buildGeminiHistory (m :: rest) = [])
  ∧ (∀ m2, head rest = Some m2 → author m2 = USER →
       role <$> head (buildGeminiHistory (m :: rest)) = Some "user")
  ∧ (∀ m2, head rest = Some m2 → author m2 = AI →
       role <$> head (buildGeminiHistory (m :: rest)) = Some "model").
Proof.
  intros Hm. rewrite (buildGeminiHistory_cons_AI m rest Hm).
  split; [apply length_fmap|].
  split.
  { intros i msg Hi. exists (toContent msg).
    split; [by rewrite list_lookup_fmap, Hi|].
    split; [reflexivity|].
    unfold toContent; simpl.
    destruct (decide (author msg = USER)); split; intros; done. }
  split; [by intros ->|].
  split; intros m2 Hhead Hauthor; destruct rest as [|m' rest']; simplify_eq/=;
    unfold toContent; rewrite Hauthor; reflexivity.
Qed.

Lemma buildGeminiHistory_leading_assistant_witness :
  length (buildGeminiHistory [greeting; question; answer]) = 2
  ∧ (∃ c, buildGeminiHistory [greeting; question; answer] !! 1 = Some c
          ∧ parts c = [TextPart "Allyship is ..."]
          ∧ (author answer = USER → role c = "user")
          ∧ (author answer ≠ USER → role c = "model"))
  ∧ role <$> head (buildGeminiHistory [greeting; question; answer])
    = Some "user".
Proof.
  destruct (buildGeminiHistory_leading_assistant greeting [question; answer]
              eq_refl) as (Hlen & Hnth & _ & Huser & _).
  split; [exact Hlen|].
  split; [exact (Hnth 1 answer eq_refl)|].
  exact (Huser question eq_refl eq_refl).
Defined.

(** C2: for every history whose first turn is the user's,
    [buildGeminiHistory] returns a list of the same length in which the
    [i]-th element comes from the [i]-th turn: its only part is the text
    part holding the turn's content, and its role is ['user'] for a turn
    of the user and ['model'] otherwise. *)
Theorem buildGeminiHistory_leading_user (h : list Message) :
  author <$> head h = Some USER →
  length (buildGeminiHistory h) = length h
  ∧ ∀ i msg, h !! i = Some msg →
      ∃ c, buildGeminiHistory h !! i = Some c
           ∧ parts c = [TextPart (content msg)]
           ∧ (author msg = USER → role c = "user")
           ∧ (author msg ≠ USER → role c = "model").
Proof.
  intros Hhead. destruct h as [|m rest]; [done|].
  simpl in Hhead. injection Hhead as Hm.
  rewrite (buildGeminiHistory_cons_USER m rest Hm).
  split; [apply length_fmap|].
  intros i msg Hi. exists (toContent msg).
  split; [by rewrite list_lookup_fmap, Hi|].
  split; [reflexivity|].
  unfold toContent; simpl.
  destruct (decide (author msg = USER)); split; intros; done.
Qed.

Lemma buildGeminiHistory_leading_user_witness :
  length (buildGeminiHistory [question; answer]) = 2
  ∧ ∃ c, buildGeminiHistory [question; answer] !! 1 = Some c
         ∧ parts c = [TextPart "Allyship is ..."]
         ∧ (author answer = USER → role c = "user")
         ∧ (author answer ≠ USER → role c = "model").
Proof.
  destruct (buildGeminiHistory_leading_user [question; answer] eq_refl)
    as [Hlen Hnth].
  split; [exact Hlen|]. exact (Hnth 1 answer eq_refl).
Defined.

(** On the store, the call computes what [buildGeminiHistory] computes
    from the contents of the caller's array, in a fresh array, and every
    array that existed before the call holds what it held. *)
Lemma Heap_buildGeminiHistory_spec (messages : nat)
    (h : gmap nat (list Message)) (g : gmap nat (list Content))
    (l : list Message) :
  h !! messages = Some l →
  ∃ r, Heap.buildGeminiHistory messages h g = Some r
       ∧ (∀ a, is_Some (h !! a) → Heap.messages_after r !! a = h !! a)
       ∧ g !! Heap.returned r = None
       ∧ Heap.contents_after r
         = <[Heap.returned r := buildGeminiHistory l]> g.
Proof.
  intros Hl.
  assert (Hfresh : h !! Heap.fresh_loc h = None).
  { apply not_elem_of_dom. unfold Heap.fresh_loc. apply is_fresh. }
  assert (Hfresh_g : g !! Heap.fresh_loc g = None).
  { apply not_elem_of_dom. unfold Heap.fresh_loc. apply is_fresh. }
  unfold Heap.buildGeminiHistory, Heap.spread. rewrite Hl. simpl.
  rewrite lookup_insert_eq. simpl.
  destruct (bool_decide (0 < length l)
            && bool_decide (author <$> l !! 0 = Some AI)) eqn:Hcond.
  - unfold Heap.shift_in_place. rewrite lookup_insert_eq. simpl.
    rewrite lookup_insert_eq. simpl. eexists. split; [reflexivity|]. simpl.
    split; [|split; [done|]].
    + intros a [x Ha]. rewrite !lookup_insert_ne; [done|congruence..].
    + unfold buildGeminiHistory. simpl. by rewrite Hcond.
  - simpl. rewrite lookup_insert_eq. simpl.
    eexists. split; [reflexivity|]. simpl.
    split; [|split; [done|]].
    + intros a [x Ha]. rewrite lookup_insert_ne; [done|congruence].
    + unfold buildGeminiHistory. simpl. by rewrite Hcond.
Qed.

(** C9: [buildGeminiHistory] leaves the caller's array as it was: after
    the call the array [messages] refers to holds the same elements in
    the same order (the turn is removed from a copy), and so does every
    other array of the store. *)
Theorem buildGeminiHistory_preserves_input (messages : nat)
    (h : gmap nat (list Message)) (g : gmap nat (list Content))
    (l : list Message) :
  h !! messages = Some l →
  ∃ r, Heap.buildGeminiHistory messages h g = Some r
       ∧ Heap.messages_after r !! messages = Some l
       ∧ (∀ a, is_Some (h !! a) → Heap.messages_after r !! a = h !! a)
       ∧ Heap.contents_after r !! Heap.returned r
         = Some (buildGeminiHistory l).
Proof.
  intros Hl.
  destruct (Heap_buildGeminiHistory_spec messages h g l Hl)
    as (r & Hrun & Hframe & _ & Hout).
  exists r. split; [done|]. split; [|split; [done|]].
  - rewrite Hframe by (by exists l). done.
  - rewrite Hout. apply lookup_insert_eq.
Qed.

Lemma buildGeminiHistory_preserves_input_witness :
  ∃ r, Heap.buildGeminiHistory 7 {[ 7 := [greeting; question] ]} ∅ = Some r
       ∧ Heap.messages_after r !! 7 = Some [greeting; question]
       ∧ (∀ a, is_Some (({[ 7 := [greeting; question] ]}
                           : gmap nat (list Message)) !! a) →
               Heap.messages_after r !! a
               = ({[ 7 := [greeting; question] ]}
                    : gmap nat (list Message)) !! a)
       ∧ Heap.contents_after r !! Heap.returned r
         = Some (buildGeminiHistory [greeting; question]).
Proof.
  apply (buildGeminiHistory_preserves_input 7
           {[ 7 := [greeting; question] ]} ∅ [greeting; question]).
  reflexivity.
Defined.

(** Without the copy the caller's array would lose its first turn. *)
Example buildGeminiHistory_no_copy_mutates :
  (Heap.messages_after
     <$> Heap.buildGeminiHistory_no_copy 7 {[ 7 := [greeting; question] ]} ∅)
  = Some {[ 7 := [question] ]}.
Proof. vm_compute. reflexivity. Qed.

(** * The contract of the client accessor *)

(** C4: on a first call ([ai] is still [null]), if neither
    [process.env.API_KEY] nor the stored [GEMINI_API_KEY] gives a
    credential, [getAIClient] throws the error whose message names the
    missing API key, having only read the two sources (no provider call,
    no client made, [ai] still [null]).  If one of them gives a
    credential, it returns a client made from it and stores it; from
    then on every call, whatever the environment and the storage have
    become, returns that same client and does nothing else: no read, no
    new client. *)
Theorem getAIClient_contract (s : State) :
  ai s = None →
  (truthy (process_env s !! "API_KEY") = false →
   truthy (localStorage s !! "GEMINI_API_KEY") = false →
   result (getAIClient s)
   = inl (Error "API Key not found. Please ensure it is set in environment or localStorage.")
   ∧ final (getAIClient s)
     = add_trace [ReadEnv "API_KEY"; ReadLocalStorage "GEMINI_API_KEY"] s
   ∧ ai (final (getAIClient s)) = None)
  ∧ (truthy (process_env s !! "API_KEY") = true
     ∨ truthy (localStorage s !! "GEMINI_API_KEY") = true →
     ∃ client evs,
       result (getAIClient s) = inr client
       ∧ Some (GenAI.apiKey client) = credential s
       ∧ ai (final (getAIClient s)) = Some client
       ∧ trace (final (getAIClient s)) = trace s ++ evs
       ∧ forallb (λ ev, negb (is_provider_call ev)) evs = true
       ∧ ∀ s', ai s' = Some client →
           getAIClient s'
           = {| yielded := []; result := inr client; final := s' |}).
Proof.
  intros Hai. split.
  - intros Henv Hls.
    assert (Hcred : truthy (credential s) = false).
    { unfold credential, js_or. by rewrite Henv. }
    rewrite getAIClient_missing by done. simpl.
    unfold resolve_reads. by rewrite Henv.
  - intros Hsome.
    assert (Hcred : truthy (credential s) = true).
    { unfold credential, js_or.
      destruct (truthy (process_env s !! "API_KEY")) eqn:Henv; [done|].
      by destruct Hsome. }
    destruct (truthy_Some _ Hcred) as (key & Hkey & Hne).
    exists {| GenAI.apiKey := key |}, (resolve_reads s ++ [NewClient key]).
    rewrite (getAIClient_resolved s key) by done. simpl.
    repeat split; [done| |].
    + rewrite forallb_app, resolve_reads_local. reflexivity.
    + intros s' Hs'. by apply getAIClient_cached.
Qed.

Lemma getAIClient_contract_witness :
  (result (getAIClient no_credentials)
   = inl (Error "API Key not found. Please ensure it is set in environment or localStorage.")
   ∧ final (getAIClient no_credentials)
     = add_trace [ReadEnv "API_KEY"; ReadLocalStorage "GEMINI_API_KEY"]
         no_credentials
   ∧ ai (final (getAIClient no_credentials)) = None)
  ∧ ∃ client evs,
       result (getAIClient stored_key) = inr client
       ∧ Some (GenAI.apiKey client) = credential stored_key
       ∧ ai (final (getAIClient stored_key)) = Some client
       ∧ trace (final (getAIClient stored_key)) = trace stored_key ++ evs
       ∧ forallb (λ ev, negb (is_provider_call ev)) evs = true
       ∧ ∀ s', ai s' = Some client →
           getAIClient s'
           = {| yielded := []; result := inr client; final := s' |}.
Proof.
  split.
  - apply (getAIClient_contract no_credentials eq_refl); reflexivity.
  - apply (getAIClient_contract stored_key eq_refl). right. reflexivity.
Defined.

(** Any number of further calls return the cached client and leave the
    state as it is. *)
Lemma getAIClient_cached_again (n : nat) (s : State)
    (client : GenAI.GoogleGenAI) :
  ai s = Some client →
  Nat.iter n (λ o : Outcome GenAI.GoogleGenAI, getAIClient (final o))
    (getAIClient s)
  = {| yielded := []; result := inr client; final := s |}.
Proof.
  intros Hai. induction n as [|n IH]; simpl.
  - by apply getAIClient_cached.
  - rewrite IH. simpl. by apply getAIClient_cached.
Qed.

(** * The contract of the two flows *)

(** The filter of the source keeps an entry's source exactly when the
    entry has both fields, non-empty. *)
Lemma keeps_source_iff (g : GenAI.GroundingChunk) :
  truthy (uri (source_of g)) && truthy (title (source_of g)) = true
  ↔ has_uri_and_title g.
Proof.
  unfold has_uri_and_title, source_of. simpl.
  destruct (GenAI.uri (GenAI.web g)) as [u|],
           (GenAI.title (GenAI.web g)) as [t|]; simpl;
    rewrite ?andb_false_r; try (split; [discriminate|tauto]).
  rewrite andb_true_iff, !negb_true_iff, !bool_decide_eq_false. tauto.
Qed.

Lemma filter_sources (gcs : list GenAI.GroundingChunk) :
  List.filter (λ source, truthy (uri source) && truthy (title source))
    (source_of <$> gcs)
  = source_of <$> filter has_uri_and_title gcs.
Proof.
  induction gcs as [|g gcs IH]; [reflexivity|].
  rewrite filter_cons. cbn [fmap list_fmap List.filter].
  fold (fmap (M:=list) source_of gcs). rewrite IH.
  destruct (decide (has_uri_and_title g)) as [Hg|Hg].
  - apply keeps_source_iff in Hg. by rewrite Hg.
  - destruct (truthy (uri (source_of g)) && truthy (title (source_of g)))
      eqn:Hkeep; [|done].
    apply keeps_source_iff in Hkeep. done.
Qed.

Lemma chunk_sources_spec (chunk : GenAI.GenerateContentResponse) :
  chunk_sources chunk
  = source_of <$> filter has_uri_and_title (default [] (citation_metadata chunk)).
Proof.
  unfold chunk_sources. fold (citation_metadata chunk).
  destruct (citation_metadata chunk) as [gcs|]; [|reflexivity].
  simpl. apply filter_sources.
Qed.

(** C3: in the conversational flow, the element yielded for a chunk
    whose citation metadata is the list [gcs] has as [sources] the
    entries of [gcs] that have both a URI and a title, neither empty, as
    [{ uri, title }] objects in the order of [gcs], and no others. *)
Theorem chat_sources_are_filtered_metadata (SYSTEM_PROMPT : string)
    (provider : Provider) (history : list Message) (newMessage : string)
    (s : State) (client : GenAI.GoogleGenAI) (chat : GenAI.Chat)
    (stream : Stream) (i : nat) (chunk : GenAI.GenerateContentResponse)
    (gcs : list GenAI.GroundingChunk) :
  result (getAIClient s) = inr client →
  chats_create provider client (chat_parameters SYSTEM_PROMPT history)
  = inr chat →
  sendMessageStream provider chat newMessage = inr stream →
  chunks stream !! i = Some chunk →
  citation_metadata chunk = Some gcs →
  ∃ el,
    yielded (getChatResponseStream SYSTEM_PROMPT provider history newMessage s)
      !! i = Some el
    ∧ text el = GenAI.text chunk
    ∧ sources el = source_of <$> filter has_uri_and_title gcs.
Proof.
  intros Hclient Hcreate Hsend Hi Hmeta.
  flow_cases.
  rewrite Hclient, Hcreate, Hsend. simpl.
  exists (chat_element chunk). unfold stream_elements.
  split; [|split; [reflexivity|]].
  - rewrite lookup_app_l by
      (rewrite length_fmap; by apply lookup_lt_Some with chunk).
    by rewrite list_lookup_fmap, Hi.
  - simpl. by rewrite chunk_sources_spec, Hmeta.
Qed.

Lemma chat_sources_are_filtered_metadata_witness :
  ∃ el,
    yielded (getChatResponseStream "system prompt"
               (streaming
                  [cited "Allyship"
                     [web_chunk (Some "https://a.example") (Some "A");
                      web_chunk None (Some "B");
                      web_chunk (Some "https://c.example") (Some "");
                      web_chunk (Some "https://d.example") (Some "D")]]
                  None)
               [greeting; question] "And inclusion?" stored_key)
      !! 0 = Some el
    ∧ text el = "Allyship"
    ∧ sources el
      = [ {| uri := Some "https://a.example"; title := Some "A" |};
          {| uri := Some "https://d.example"; title := Some "D" |} ].
Proof.
  eapply (chat_sources_are_filtered_metadata "system prompt" _
            [greeting; question] "And inclusion?" stored_key
            {| GenAI.apiKey := "k-123" |} _ _ 0
            (cited "Allyship" _)
            [web_chunk (Some "https://a.example") (Some "A");
             web_chunk None (Some "B");
             web_chunk (Some "https://c.example") (Some "");
             web_chunk (Some "https://d.example") (Some "D")]);
    reflexivity.
Defined.

(** C5: when the provider stream of a flow delivers the chunks [cs] and
    then throws, the flow yields the elements of [cs], in order, followed
    by exactly one placeholder (the flow's apology, no sources), and ends
    normally: the error is not raised again.  A stream that throws before
    its first chunk gives exactly one element. *)
Theorem streams_end_with_placeholder (SYSTEM_PROMPT : string)
    (provider : Provider) (history : list Message) (newMessage : string)
    (file : option File) (s : State) (client : GenAI.GoogleGenAI)
    (chat : GenAI.Chat)
    (cs cs' : list GenAI.GenerateContentResponse) (e e' : exn) :
  result (getAIClient s) = inr client →
  chats_create provider client (chat_parameters SYSTEM_PROMPT history)
  = inr chat →
  sendMessageStream provider chat newMessage
  = inr {| chunks := cs; failure := Some e |} →
  generateContentStream provider client
    (deep_dive_request SYSTEM_PROMPT newMessage file)
  = inr {| chunks := cs'; failure := Some e' |} →
  let chat_run :=
    getChatResponseStream SYSTEM_PROMPT provider history newMessage s in
  let deep_dive_run :=
    getDeepDiveResponseStream SYSTEM_PROMPT provider newMessage file s in
  yielded chat_run
  = ((λ chunk, {| text := GenAI.text chunk; sources := chunk_sources chunk |})
       <$> cs)
    ++ [ {| text := "I'm sorry, I encountered an error. Please try again.";
            sources := [] |} ]
  ∧ result chat_run = inr ()
  ∧ yielded deep_dive_run
    = ((λ chunk, {| text := GenAI.text chunk; sources := [] |}) <$> cs')
      ++ [ {| text := "I'm sorry, I encountered an error during the deep dive analysis. Please try again.";
              sources := [] |} ]
  ∧ result deep_dive_run = inr ()
  ∧ (cs = [] → length (yielded chat_run) = 1)
  ∧ (cs' = [] → length (yielded deep_dive_run) = 1).
Proof.
  intros Hclient Hcreate Hsend Hgen chat_run deep_dive_run.
  subst chat_run deep_dive_run.
  flow_cases.
  rewrite Hclient, Hcreate, Hsend, Hgen. simpl.
  unfold stream_elements. simpl.
  repeat split; try by intros ->.
Qed.

Lemma streams_end_with_placeholder_witness :
  let p := streaming [cited "Allyship" []; cited " is" []]
             (Some (ProviderError "connection reset")) in
  let chat_run :=
    getChatResponseStream "system prompt" p [greeting; question] "More?"
      stored_key in
  let deep_dive_run :=
    getDeepDiveResponseStream "system prompt" p "More?" None stored_key in
  yielded chat_run
  = [ {| text := "Allyship"; sources := [] |};
      {| text := " is"; sources := [] |};
      {| text := "I'm sorry, I encountered an error. Please try again.";
         sources := [] |} ]
  ∧ result chat_run = inr ()
  ∧ yielded deep_dive_run
    = [ {| text := "Allyship"; sources := [] |};
        {| text := " is"; sources := [] |};
        {| text := "I'm sorry, I encountered an error during the deep dive analysis. Please try again.";
           sources := [] |} ]
  ∧ result deep_dive_run = inr ().
Proof.
  destruct (streams_end_with_placeholder "system prompt"
              (streaming [cited "Allyship" []; cited " is" []]
                 (Some (ProviderError "connection reset")))
              [greeting; question] "More?" None stored_key
              {| GenAI.apiKey := "k-123" |}
              {| GenAI.chat_client := {| GenAI.apiKey := "k-123" |};
                 GenAI.chat_parameters :=
                   chat_parameters "system prompt" [greeting; question] |}
              [cited "Allyship" []; cited " is" []]
              [cited "Allyship" []; cited " is" []]
              (ProviderError "connection reset")
              (ProviderError "connection reset")
              eq_refl eq_refl eq_refl eq_refl)
    as (Hchat & Hchat_ok & Hdeep & Hdeep_ok & _).
  repeat split; assumption.
Defined.

(** A failure while the session is set up ([chats.create] or
    [sendMessageStream] in the conversational flow, the opening of the
    stream in the deep-dive flow) gives the placeholder alone. *)
Lemma setup_failure_gives_placeholder (SYSTEM_PROMPT : string)
    (provider : Provider) (history : list Message) (newMessage : string)
    (file : option File) (s : State) (client : GenAI.GoogleGenAI) (e : exn) :
  result (getAIClient s) = inr client →
  (chats_create provider client (chat_parameters SYSTEM_PROMPT history)
   = inl e →
   yielded (getChatResponseStream SYSTEM_PROMPT provider history newMessage s)
   = [chat_placeholder])
  ∧ (∀ chat,
       chats_create provider client (chat_parameters SYSTEM_PROMPT history)
       = inr chat →
       sendMessageStream provider chat newMessage = inl e →
       yielded (getChatResponseStream SYSTEM_PROMPT provider history
                  newMessage s)
       = [chat_placeholder])
  ∧ (generateContentStream provider client
       (deep_dive_request SYSTEM_PROMPT newMessage file) = inl e →
     yielded (getDeepDiveResponseStream SYSTEM_PROMPT provider newMessage
                file s)
     = [deep_dive_placeholder]).
Proof.
  intros Hclient.
  flow_cases.
  rewrite Hclient.
  split; [|split].
  - by intros ->.
  - intros chat -> Hsend. by rewrite Hsend.
  - by intros ->.
Qed.

(** Neither flow ever throws to its caller. *)
Lemma flows_never_throw (SYSTEM_PROMPT : string) (provider : Provider)
    (history : list Message) (newMessage : string) (file : option File)
    (s : State) :
  result (getChatResponseStream SYSTEM_PROMPT provider history newMessage s)
  = inr ()
  ∧ result (getDeepDiveResponseStream SYSTEM_PROMPT provider newMessage file s)
    = inr ().
Proof.
  flow_cases.
  destruct (result (getAIClient s)) as [e|client]; [done|].
  split.
  - destruct (chats_create _ _ _) as [e|chat]; [done|].
    by destruct (sendMessageStream _ _ _).
  - by destruct (generateContentStream _ _ _).
Qed.

(** C6, as stated, fails: with no credential anywhere, each flow ends
    normally after yielding its placeholder; the configuration error is
    only logged. *)
Lemma configuration_error_is_caught_counterexample :
  result (getAIClient no_credentials)
  = inl (Error "API Key not found. Please ensure it is set in environment or localStorage.")
  ∧ getChatResponseStream "system prompt" (streaming [] None)
      [greeting; question] "Hello" no_credentials
    = {| yielded :=
           [ {| text := "I'm sorry, I encountered an error. Please try again.";
                sources := [] |} ];
         result := inr ();
         final :=
           add_trace
             [ReadEnv "API_KEY"; ReadLocalStorage "GEMINI_API_KEY";
              ConsoleError "Error getting chat response:"
                (Error "API Key not found. Please ensure it is set in environment or localStorage.")]
             no_credentials |}
  ∧ getDeepDiveResponseStream "system prompt" (streaming [] None)
      "Hello" None no_credentials
    = {| yielded :=
           [ {| text := "I'm sorry, I encountered an error during the deep dive analysis. Please try again.";
                sources := [] |} ];
         result := inr ();
         final :=
           add_trace
             [ReadEnv "API_KEY"; ReadLocalStorage "GEMINI_API_KEY";
              ConsoleError "Error getting deep dive response:"
                (Error "API Key not found. Please ensure it is set in environment or localStorage.")]
             no_credentials |}.
Proof. repeat split. Qed.

(** C6 (amended): the configuration error raised on first client access
    is caught by the streaming flows, since [getAIClient] is called
    inside their [try] block: invoked with no credential resolvable,
    [getChatResponseStream] and [getDeepDiveResponseStream] each yield
    exactly their placeholder element, log the error and end normally,
    without any call to the provider; nothing propagates to the
    caller. *)
Theorem configuration_error_is_caught (SYSTEM_PROMPT : string)
    (provider : Provider) (history : list Message) (newMessage : string)
    (file : option File) (s : State) :
  ai s = None →
  truthy (process_env s !! "API_KEY") = false →
  truthy (localStorage s !! "GEMINI_API_KEY") = false →
  getChatResponseStream SYSTEM_PROMPT provider history newMessage s
  = {| yielded := [chat_placeholder]; result := inr ();
       final :=
         add_trace
           [ReadEnv "API_KEY"; ReadLocalStorage "GEMINI_API_KEY";
            ConsoleError "Error getting chat response:"
              (Error missing_key_message)] s |}
  ∧ getDeepDiveResponseStream SYSTEM_PROMPT provider newMessage file s
    = {| yielded := [deep_dive_placeholder]; result := inr ();
         final :=
           add_trace
             [ReadEnv "API_KEY"; ReadLocalStorage "GEMINI_API_KEY";
              ConsoleError "Error getting deep dive response:"
                (Error missing_key_message)] s |}.
Proof.
  intros Hai Henv Hls.
  assert (Hcred : truthy (credential s) = false).
  { unfold credential, js_or. by rewrite Henv. }
  flow_cases.
  rewrite getAIClient_missing by done. simpl.
  unfold resolve_reads. rewrite Henv, !add_trace_app. done.
Qed.

Lemma configuration_error_is_caught_witness :
  yielded (getChatResponseStream "system prompt" (streaming [] None)
             [greeting; question] "Hello" no_credentials)
  = [chat_placeholder]
  ∧ yielded (getDeepDiveResponseStream "system prompt" (streaming [] None)
               "Hello" (Some sample_file) no_credentials)
    = [deep_dive_placeholder].
Proof.
  destruct (configuration_error_is_caught "system prompt"
              (streaming [] None) [greeting; question] "Hello"
              (Some sample_file) no_credentials eq_refl eq_refl eq_refl)
    as [Hchat Hdeep].
  split.
  - exact (f_equal yielded Hchat).
  - exact (f_equal yielded Hdeep).
Defined.

(** C7: with a file attached, the user parts of the deep-dive request
    are the file's inline payload followed by one text part, which holds
    the default prompt when the message is empty and the message itself
    when it is not. *)
Theorem deep_dive_parts_with_file (SYSTEM_PROMPT : string) (file : File) :
  GenAI.contents (deep_dive_request SYSTEM_PROMPT "" (Some file))
  = [ {| role := "user";
         parts := [ InlineDataPart (split_comma (dataURL file) !! 1) (type file);
                    TextPart "Please provide a summary of the attached document." ] |} ]
  ∧ ∀ newMessage, newMessage ≠ "" →
      GenAI.contents (deep_dive_request SYSTEM_PROMPT newMessage (Some file))
      = [ {| role := "user";
             parts := [ InlineDataPart (split_comma (dataURL file) !! 1)
                          (type file);
                        TextPart newMessage ] |} ].
Proof.
  split; [reflexivity|].
  intros newMessage Hne. unfold deep_dive_request, userParts. simpl.
  by rewrite bool_decide_eq_false_2.
Qed.

Lemma deep_dive_parts_with_file_witness :
  GenAI.contents
    (deep_dive_request "system prompt" "Summarise section 2" (Some sample_file))
  = [ {| role := "user";
         parts := [ InlineDataPart (Some "JVBERi0xLjQ=") "application/pdf";
                    TextPart "Summarise section 2" ] |} ].
Proof.
  apply (proj2 (deep_dive_parts_with_file "system prompt" sample_file)
           "Summarise section 2").
  discriminate.
Defined.

(** C10: with an empty message and no file, the deep-dive request has
    exactly one user part, the text part holding the default prompt. *)
Theorem deep_dive_parts_default_without_file (SYSTEM_PROMPT : string) :
  GenAI.contents (deep_dive_request SYSTEM_PROMPT "" None)
  = [ {| role := "user";
         parts := [ TextPart "Please provide a summary of the attached document." ] |} ]
  ∧ length (userParts "" None) = 1.
Proof. split; reflexivity. Qed.

(** The request built is the one the provider is called with, once a
    client is at hand. *)
Lemma deep_dive_sends_request (SYSTEM_PROMPT : string) (provider : Provider)
    (newMessage : string) (file : option File) (s : State)
    (client : GenAI.GoogleGenAI) :
  result (getAIClient s) = inr client →
  GenerateContentStream (deep_dive_request SYSTEM_PROMPT newMessage file)
  ∈ trace (final (getDeepDiveResponseStream SYSTEM_PROMPT provider
                    newMessage file s)).
Proof.
  intros Hclient. flow_cases.
  rewrite Hclient.
  destruct (generateContentStream _ _ _) as [e|stream]; simpl;
    apply elem_of_app; right; apply elem_of_cons; by left.
Qed.

(** C8: every element the deep-dive flow yields, for a chunk or as the
    placeholder, has an empty list of sources. *)
Theorem deep_dive_never_cites (SYSTEM_PROMPT : string) (provider : Provider)
    (newMessage : string) (file : option File) (s : State) :
  Forall (λ el, sources el = [])
    (yielded (getDeepDiveResponseStream SYSTEM_PROMPT provider newMessage
                file s)).
Proof.
  flow_cases.
  destruct (result (getAIClient s)) as [e|client]; simpl.
  { by repeat constructor. }
  destruct (generateContentStream _ _ _) as [e|stream]; simpl.
  { by repeat constructor. }
  unfold stream_elements. apply Forall_app. split.
  - apply Forall_fmap, Forall_true. done.
  - destruct (failure stream); by repeat constructor.
Qed.

(** * Further properties of the history adapter *)

Lemma roles_differ_iff (m1 m2 : Message) :
  role (toContent m1) = role (toContent m2) ↔ author m1 = author m2.
Proof.
  unfold toContent. simpl.
  destruct (author m1), (author m2); simpl; split; intros; done.
Qed.

Lemma alternates_relabelled (h : list Message) :
  alternates h = true → roles_alternate (toContent <$> h) = true.
Proof.
  induction h as [|m1 rest IH]; [done|].
  cbn [alternates fmap list_fmap roles_alternate].
  fold (fmap (M:=list) toContent rest).
  intros [Hhead Hrest]%andb_true_iff. rewrite (IH Hrest), andb_true_r.
  destruct rest as [|m2 rest']; [done|].
  apply negb_true_iff, bool_decide_eq_false in Hhead.
  change (negb (bool_decide (role (toContent m1) = role (toContent m2)))
          = true).
  apply negb_true_iff, bool_decide_eq_false.
  by rewrite roles_differ_iff.
Qed.

Lemma alternates_tail (m : Message) (rest : list Message) :
  alternates (m :: rest) = true → alternates rest = true.
Proof. simpl. by intros [_ ?]%andb_true_iff. Qed.

(** X1: when the authors of the history alternate, the adapted history
    meets what the provider asks for: it is empty or starts with role
    ['user'], and its roles alternate. *)
Theorem buildGeminiHistory_alternating (h : list Message) :
  alternates h = true →
  (∀ c, head (buildGeminiHistory h) = Some c → role c = "user")
  ∧ roles_alternate (buildGeminiHistory h) = true.
Proof.
  intros Halt. destruct h as [|m rest]; [done|].
  destruct (author m) eqn:Hm.
  - rewrite (buildGeminiHistory_cons_USER m rest Hm). split.
    + intros c [= <-]. by apply role_toContent_user.
    + by apply alternates_relabelled.
  - rewrite (buildGeminiHistory_cons_AI m rest Hm). split.
    + destruct rest as [|m2 rest']; [done|]. intros c [= <-].
      apply role_toContent_user. simpl in Halt.
      apply andb_true_iff in Halt as [Hhead _].
      apply negb_true_iff, bool_decide_eq_false in Hhead.
      rewrite Hm in Hhead. by destruct (author m2).
    + apply alternates_relabelled. by apply alternates_tail in Halt.
Qed.

Lemma buildGeminiHistory_alternating_witness :
  (∀ c, head (buildGeminiHistory [greeting; question; answer; question])
        = Some c → role c = "user")
  ∧ roles_alternate (buildGeminiHistory [greeting; question; answer; question])
    = true.
Proof.
  apply (buildGeminiHistory_alternating [greeting; question; answer; question]).
  reflexivity.
Defined.

(** X2: for every history, the adapter drops at most one turn, the first
    one and only when it is the assistant's, and relabels the others in
    place: with [k] turns dropped, element [i] of the result holds the
    content of turn [k + i] and has role ['user'] exactly when that turn
    is the user's. *)
Theorem buildGeminiHistory_drops_at_most_first (h : list Message) :
  ∃ k,
    (k = 1 ∧ author <$> head h = Some AI
     ∨ k = 0 ∧ author <$> head h ≠ Some AI)
    ∧ length (buildGeminiHistory h) = length h - k
    ∧ ∀ i msg, h !! (k + i) = Some msg →
        ∃ c, buildGeminiHistory h !! i = Some c
             ∧ parts c = [TextPart (content msg)]
             ∧ (role c = "user" ↔ author msg = USER).
Proof.
  assert (Hmap : ∀ (l : list Message) i msg, l !! i = Some msg →
            ∃ c, (toContent <$> l) !! i = Some c
                 ∧ parts c = [TextPart (content msg)]
                 ∧ (role c = "user" ↔ author msg = USER)).
  { intros l i msg Hi. exists (toContent msg).
    rewrite list_lookup_fmap, Hi. split; [done|]. split; [done|].
    apply role_toContent_user. }
  destruct h as [|m rest].
  - exists 0. split; [by right|]. split; [done|]. intros i msg Hi. done.
  - destruct (author m) eqn:Hm.
    + exists 0. rewrite (buildGeminiHistory_cons_USER m rest Hm).
      split; [right; split; [done|]; simpl; congruence|].
      split; [rewrite length_fmap; simpl; lia|]. apply Hmap.
    + exists 1. rewrite (buildGeminiHistory_cons_AI m rest Hm).
      split; [left; split; [done|]; simpl; congruence|].
      split; [rewrite length_fmap; simpl; lia|].
      intros i msg Hi. by apply Hmap.
Qed.

(** X3: the adapter can be called again on the same array: since the
    caller's array is left as it was, two successive calls return two
    different arrays with the same contents, and the second call does not
    overwrite the array the first one returned. *)
Theorem buildGeminiHistory_twice (messages : nat)
    (h : gmap nat (list Message)) (g : gmap nat (list Content))
    (l : list Message) :
  h !! messages = Some l →
  ∃ r1 r2,
    Heap.buildGeminiHistory messages h g = Some r1
    ∧ Heap.buildGeminiHistory messages (Heap.messages_after r1)
        (Heap.contents_after r1) = Some r2
    ∧ Heap.returned r1 ≠ Heap.returned r2
    ∧ Heap.contents_after r2 !! Heap.returned r1 = Some (buildGeminiHistory l)
    ∧ Heap.contents_after r2 !! Heap.returned r2 = Some (buildGeminiHistory l)
    ∧ Heap.messages_after r2 !! messages = Some l.
Proof.
  intros Hl.
  destruct (Heap_buildGeminiHistory_spec messages h g l Hl)
    as (r1 & Hrun1 & Hframe1 & Hfresh1 & Hout1).
  assert (Hl1 : Heap.messages_after r1 !! messages = Some l).
  { rewrite Hframe1 by (by exists l). done. }
  destruct (Heap_buildGeminiHistory_spec messages (Heap.messages_after r1)
              (Heap.contents_after r1) l Hl1)
    as (r2 & Hrun2 & Hframe2 & Hfresh2 & Hout2).
  exists r1, r2. split; [done|]. split; [done|].
  assert (Hne : Heap.returned r1 ≠ Heap.returned r2).
  { intros Heq. rewrite <- Heq, Hout1, lookup_insert_eq in Hfresh2. done. }
  split; [done|]. rewrite Hout2, Hout1.
  split; [|split].
  - rewrite lookup_insert_ne by done. apply lookup_insert_eq.
  - apply lookup_insert_eq.
  - rewrite Hframe2 by (by exists l). done.
Qed.

Lemma buildGeminiHistory_twice_witness :
  ∃ r1 r2,
    Heap.buildGeminiHistory 7 {[ 7 := [greeting; question] ]} ∅ = Some r1
    ∧ Heap.buildGeminiHistory 7 (Heap.messages_after r1)
        (Heap.contents_after r1) = Some r2
    ∧ Heap.returned r1 ≠ Heap.returned r2
    ∧ Heap.contents_after r2 !! Heap.returned r1
      = Some (buildGeminiHistory [greeting; question])
    ∧ Heap.contents_after r2 !! Heap.returned r2
      = Some (buildGeminiHistory [greeting; question])
    ∧ Heap.messages_after r2 !! 7 = Some [greeting; question].
Proof.
  apply (buildGeminiHistory_twice 7 {[ 7 := [greeting; question] ]} ∅
           [greeting; question]).
  reflexivity.
Defined.

(** * Further properties of the file adapter *)

Lemma split_comma_pieces (s : string) :
  Forall (λ piece, comma_free piece = true) (split_comma s)
  ∧ split_comma s ≠ [].
Proof.
  induction s as [|c s [IHfree IHne]]; simpl.
  - split; [by repeat constructor|done].
  - destruct (bool_decide (c = ","%char)) eqn:Hc.
    + split; [by constructor|done].
    + destruct (split_comma s) as [|piece pieces]; [done|].
      split; [|done]. inversion IHfree as [|? ? Hpiece Hrest]; subst.
      constructor; [|done]. simpl. by rewrite Hc, Hpiece.
Qed.

(** Joining the pieces with commas gives the string back. *)
Lemma join_split_comma (s : string) : join_comma (split_comma s) = s.
Proof.
  induction s as [|c s IH]; [reflexivity|]. simpl.
  destruct (bool_decide (c = ","%char)) eqn:Hc.
  - apply bool_decide_eq_true in Hc as ->.
    destruct (split_comma_pieces s) as [_ Hne].
    destruct (split_comma s) as [|piece pieces] eqn:Hs; [done|].
    change (join_comma ("" :: piece :: pieces))
      with ("" +:+ "," +:+ join_comma (piece :: pieces)).
    by rewrite IH.
  - destruct (split_comma s) as [|piece pieces] eqn:Hs.
    + by destruct (split_comma_pieces s) as [_ Hne].
    + destruct pieces as [|piece' pieces'].
      * simpl in *. by rewrite IH.
      * change (String c (join_comma (piece :: piece' :: pieces'))
                = String c s).
        by rewrite IH.
Qed.

(** X4: for a file whose reader result is a data URL
    [<header>,<payload>], with no comma in the header nor in the payload
    (as in base64), the inline part holds exactly the payload, with the
    file's MIME type. *)
Theorem fileToGenerativePart_keeps_payload (mime header payload : string) :
  comma_free header = true →
  comma_free payload = true →
  fileToGenerativePart
    {| type := mime; dataURL := header +:+ "," +:+ payload |}
  = InlineDataPart (Some payload) mime.
Proof.
  intros Hheader Hpayload. unfold fileToGenerativePart. simpl.
  rewrite (split_comma_app header payload Hheader).
  by rewrite (split_comma_comma_free payload Hpayload).
Qed.

Lemma fileToGenerativePart_keeps_payload_witness :
  fileToGenerativePart
    {| type := "image/png";
       dataURL := "data:image/png;base64" +:+ "," +:+ "iVBORw0KGgo=" |}
  = InlineDataPart (Some "iVBORw0KGgo=") "image/png".
Proof.
  apply (fileToGenerativePart_keeps_payload "image/png"
           "data:image/png;base64" "iVBORw0KGgo="); reflexivity.
Defined.

(** X5: when the reader result holds no comma (a bare ["data:"], as for
    an empty file), the inline part is still built, with the file's MIME
    type and no data ([undefined]). *)
Theorem fileToGenerativePart_without_comma (file : File) :
  comma_free (dataURL file) = true →
  fileToGenerativePart file = InlineDataPart None (type file).
Proof.
  intros Hfree. unfold fileToGenerativePart.
  by rewrite (split_comma_comma_free _ Hfree).
Qed.

Lemma fileToGenerativePart_without_comma_witness :
  fileToGenerativePart {| type := ""; dataURL := "data:" |}
  = InlineDataPart None "".
Proof.
  apply (fileToGenerativePart_without_comma
           {| type := ""; dataURL := "data:" |}).
  reflexivity.
Defined.

(** * Further properties of the client accessor *)

Lemma getAIClient_frame (s : State) :
  process_env (final (getAIClient s)) = process_env s
  ∧ localStorage (final (getAIClient s)) = localStorage s
  ∧ ∃ evs, trace (final (getAIClient s)) = trace s ++ evs
           ∧ List.filter is_provider_call evs = [].
Proof.
  assert (Hreads : List.filter is_provider_call (resolve_reads s) = []).
  { unfold resolve_reads. by destruct (truthy _). }
  destruct (ai s) as [client|] eqn:Hai.
  - rewrite (getAIClient_cached s client) by done. simpl.
    split; [done|]. split; [done|]. exists []. by rewrite app_nil_r.
  - destruct (truthy (credential s)) eqn:Hcred.
    + destruct (truthy_Some _ Hcred) as (key & Hk & Hne).
      rewrite (getAIClient_resolved s key) by done. simpl.
      split; [done|]. split; [done|]. eexists. split; [done|].
      by rewrite List.filter_app, Hreads.
    + rewrite getAIClient_missing by done. simpl.
      split; [done|]. split; [done|]. by eexists.
Qed.

(** X6: the environment takes precedence: on a first call with a
    non-empty [process.env.API_KEY], the client is made from that key,
    and local storage is not even read, whatever it holds. *)
Theorem getAIClient_prefers_environment (s : State) (key : string) :
  ai s = None →
  process_env s !! "API_KEY" = Some key →
  key ≠ "" →
  getAIClient s
  = {| yielded := []; result := inr {| GenAI.apiKey := key |};
       final := with_client {| GenAI.apiKey := key |}
                  (add_trace [ReadEnv "API_KEY"; NewClient key] s) |}.
Proof.
  intros Hai Henv Hne.
  assert (Htruthy : truthy (process_env s !! "API_KEY") = true).
  { rewrite Henv. by apply truthy_Some_ne. }
  rewrite (getAIClient_resolved s key Hai); [|by unfold credential, js_or;
    rewrite Htruthy|done].
  unfold resolve_reads. by rewrite Htruthy.
Qed.

Lemma getAIClient_prefers_environment_witness :
  getAIClient both_keys
  = {| yielded := []; result := inr {| GenAI.apiKey := "env-key" |};
       final := with_client {| GenAI.apiKey := "env-key" |}
                  (add_trace [ReadEnv "API_KEY"; NewClient "env-key"]
                     both_keys) |}.
Proof.
  apply (getAIClient_prefers_environment both_keys "env-key");
    [reflexivity|reflexivity|discriminate].
Defined.

(** X7: an environment variable that is unset or set to the empty string
    counts as missing: the accessor then falls back to the stored
    [GEMINI_API_KEY] and makes the client from it. *)
Theorem getAIClient_falls_back_to_storage (s : State) (key : string) :
  ai s = None →
  process_env s !! "API_KEY" = None ∨ process_env s !! "API_KEY" = Some "" →
  localStorage s !! "GEMINI_API_KEY" = Some key →
  key ≠ "" →
  getAIClient s
  = {| yielded := []; result := inr {| GenAI.apiKey := key |};
       final := with_client {| GenAI.apiKey := key |}
                  (add_trace [ReadEnv "API_KEY";
                              ReadLocalStorage "GEMINI_API_KEY";
                              NewClient key] s) |}.
Proof.
  intros Hai Henv Hls Hne.
  assert (Hfalsy : truthy (process_env s !! "API_KEY") = false).
  { by destruct Henv as [-> | ->]. }
  rewrite (getAIClient_resolved s key Hai); [|by unfold credential, js_or;
    rewrite Hfalsy|done].
  unfold resolve_reads. by rewrite Hfalsy.
Qed.

Lemma getAIClient_falls_back_to_storage_witness :
  getAIClient empty_env_key
  = {| yielded := []; result := inr {| GenAI.apiKey := "stored-key" |};
       final := with_client {| GenAI.apiKey := "stored-key" |}
                  (add_trace [ReadEnv "API_KEY";
                              ReadLocalStorage "GEMINI_API_KEY";
                              NewClient "stored-key"] empty_env_key) |}.
Proof.
  apply (getAIClient_falls_back_to_storage empty_env_key "stored-key");
    [reflexivity|right; reflexivity|reflexivity|discriminate].
Defined.

Lemma getAIClient_caches (s : State) (client : GenAI.GoogleGenAI) :
  result (getAIClient s) = inr client →
  ai (final (getAIClient s)) = Some client.
Proof.
  destruct (ai s) as [cached|] eqn:Hai.
  - rewrite (getAIClient_cached s cached) by done. simpl. congruence.
  - destruct (truthy (credential s)) eqn:Hcred.
    + destruct (truthy_Some _ Hcred) as (key & Hk & Hne).
      rewrite (getAIClient_resolved s key) by done. simpl. congruence.
    + by rewrite getAIClient_missing.
Qed.

(** X8: the client in [ai] never holds an empty key: if that is so
    before a call of the accessor it is so after it, and the client the
    accessor returns has a non-empty key. *)
Theorem getAIClient_key_never_empty (s : State) :
  cache_ok s →
  cache_ok (final (getAIClient s))
  ∧ ∀ client, result (getAIClient s) = inr client → GenAI.apiKey client ≠ "".
Proof.
  intros Hok.
  assert (Hfinal : cache_ok (final (getAIClient s))).
  { destruct (ai s) as [cached|] eqn:Hai.
    - by rewrite (getAIClient_cached s cached).
    - destruct (truthy (credential s)) eqn:Hcred.
      + destruct (truthy_Some _ Hcred) as (key & Hk & Hne).
        rewrite (getAIClient_resolved s key) by done.
        intros client. simpl. by intros [= <-].
      + rewrite getAIClient_missing by done.
        intros client. simpl. by rewrite Hai. }
  split; [done|].
  intros client Hclient. apply Hfinal. by apply getAIClient_caches.
Qed.

Lemma getAIClient_key_never_empty_witness :
  cache_ok (final (getAIClient stored_key))
  ∧ ∀ client,
      result (getAIClient stored_key) = inr client → GenAI.apiKey client ≠ "".
Proof.
  apply (getAIClient_key_never_empty stored_key).
  intros client. discriminate.
Defined.

(** * Further properties of the two flows *)

Section FlowProperties.

Variable SYSTEM_PROMPT : string.
Variable provider : Provider.

(** What each flow does to the state, on top of the accessor: it only
    adds events, among which the provider calls are the ones listed. *)
Lemma getChatResponseStream_final (history : list Message)
    (newMessage : string) (s : State) :
  let params := chat_parameters SYSTEM_PROMPT history in
  ∃ evs,
    final (getChatResponseStream SYSTEM_PROMPT provider history newMessage s)
    = add_trace evs (final (getAIClient s))
    ∧ (List.filter is_provider_call evs = []
       ∨ List.filter is_provider_call evs = [ChatsCreate params]
       ∨ List.filter is_provider_call evs
         = [ChatsCreate params; SendMessageStream newMessage]).
Proof.
  intros params. flow_cases. fold params.
  destruct (result (getAIClient s)) as [e|client]; simpl.
  { eexists. split; [reflexivity|]. by left. }
  destruct (chats_create provider client params) as [e|chat]; simpl.
  { eexists. split; [reflexivity|]. right. by left. }
  destruct (sendMessageStream provider chat newMessage) as [e|stream]; simpl.
  { eexists. split; [reflexivity|]. right. by right. }
  eexists. split; [reflexivity|]. right. right. simpl.
  unfold stream_events. by destruct (failure stream).
Qed.

Lemma getDeepDiveResponseStream_final (newMessage : string)
    (file : option File) (s : State) :
  let req := deep_dive_request SYSTEM_PROMPT newMessage file in
  ∃ evs,
    final (getDeepDiveResponseStream SYSTEM_PROMPT provider newMessage file s)
    = add_trace evs (final (getAIClient s))
    ∧ (List.filter is_provider_call evs = []
       ∨ List.filter is_provider_call evs = [GenerateContentStream req]).
Proof.
  intros req. flow_cases. fold req.
  destruct (result (getAIClient s)) as [e|client]; simpl.
  { eexists. split; [reflexivity|]. by left. }
  destruct (generateContentStream provider client req) as [e|stream]; simpl.
  { eexists. split; [reflexivity|]. by right. }
  eexists. split; [reflexivity|]. right. simpl.
  unfold stream_events. by destruct (failure stream).
Qed.

End FlowProperties.

Lemma added_events_add_trace (s s1 : State) (evs0 evs : list Event) :
  trace s1 = trace s ++ evs0 →
  added_events s (add_trace evs s1) = evs0 ++ evs.
Proof.
  intros Hs1. unfold added_events, add_trace. simpl.
  by rewrite Hs1, <- app_assoc, drop_app_length.
Qed.

(** X9: neither flow retries or calls the provider more than it must:
    whatever happens, the conversational flow calls [chats.create] at
    most once, with the adapted history, and then [sendMessageStream] at
    most once, with the new message, and makes no other provider call;
    the deep-dive flow makes at most the one [generateContentStream]
    call, with the request it built. *)
Theorem flows_call_provider_once (SYSTEM_PROMPT : string) (provider : Provider)
    (history : list Message) (newMessage : string) (file : option File)
    (s : State) :
  let chat_calls :=
    List.filter is_provider_call
      (added_events s
         (final (getChatResponseStream SYSTEM_PROMPT provider history
                   newMessage s))) in
  let deep_dive_calls :=
    List.filter is_provider_call
      (added_events s
         (final (getDeepDiveResponseStream SYSTEM_PROMPT provider newMessage
                   file s))) in
  (chat_calls = []
   ∨ chat_calls = [ChatsCreate (chat_parameters SYSTEM_PROMPT history)]
   ∨ chat_calls = [ChatsCreate (chat_parameters SYSTEM_PROMPT history);
                   SendMessageStream newMessage])
  ∧ (deep_dive_calls = []
     ∨ deep_dive_calls
       = [GenerateContentStream
            (deep_dive_request SYSTEM_PROMPT newMessage file)]).
Proof.
  intros chat_calls deep_dive_calls. subst chat_calls deep_dive_calls.
  destruct (getAIClient_frame s) as (_ & _ & evs0 & Htrace & Hlocal).
  destruct (getChatResponseStream_final SYSTEM_PROMPT provider history
              newMessage s) as (evs & -> & Hchat).
  destruct (getDeepDiveResponseStream_final SYSTEM_PROMPT provider newMessage
              file s) as (evs' & -> & Hdeep).
  rewrite !(added_events_add_trace s _ evs0) by done.
  rewrite !List.filter_app, Hlocal. simpl. done.
Qed.

(** The accessor itself logs no error. *)
Lemma getAIClient_quiet (s : State) :
  ∃ evs, trace (final (getAIClient s)) = trace s ++ evs
         ∧ ∀ label e, ConsoleError label e ∉ evs.
Proof.
  assert (Hreads : ∀ label e, ConsoleError label e ∉ resolve_reads s).
  { intros label e Hin. unfold resolve_reads in Hin.
    destruct (truthy (process_env s !! "API_KEY"));
      repeat (apply elem_of_cons in Hin as [Hin|Hin]; [done|]);
      by apply not_elem_of_nil in Hin. }
  destruct (ai s) as [cached|] eqn:Hai.
  - rewrite (getAIClient_cached s cached) by done. simpl.
    exists []. split; [by rewrite app_nil_r|].
    intros label e. apply not_elem_of_nil.
  - destruct (truthy (credential s)) eqn:Hcred.
    + destruct (truthy_Some _ Hcred) as (key & Hk & Hne).
      rewrite (getAIClient_resolved s key) by done. simpl.
      eexists. split; [done|]. intros label e Hin.
      apply elem_of_app in Hin as [Hin|Hin]; [by apply (Hreads label e)|].
      apply elem_of_cons in Hin as [Hin|Hin]; [done|].
      by apply not_elem_of_nil in Hin.
    + rewrite getAIClient_missing by done. simpl. by eexists.
Qed.

(** X11: when the provider stream closes normally, each flow yields
    exactly one element per chunk, in order and with the chunk's text,
    and nothing else: no placeholder, and no error is logged. *)
Theorem streams_closing_normally (SYSTEM_PROMPT : string)
    (provider : Provider) (history : list Message) (newMessage : string)
    (file : option File) (s : State) (client : GenAI.GoogleGenAI)
    (chat : GenAI.Chat) (cs cs' : list GenAI.GenerateContentResponse) :
  result (getAIClient s) = inr client →
  chats_create provider client (chat_parameters SYSTEM_PROMPT history)
  = inr chat →
  sendMessageStream provider chat newMessage
  = inr {| chunks := cs; failure := None |} →
  generateContentStream provider client
    (deep_dive_request SYSTEM_PROMPT newMessage file)
  = inr {| chunks := cs'; failure := None |} →
  let chat_run :=
    getChatResponseStream SYSTEM_PROMPT provider history newMessage s in
  let deep_dive_run :=
    getDeepDiveResponseStream SYSTEM_PROMPT provider newMessage file s in
  yielded chat_run
  = (λ chunk, {| text := GenAI.text chunk; sources := chunk_sources chunk |})
      <$> cs
  ∧ text <$> yielded chat_run = GenAI.text <$> cs
  ∧ yielded deep_dive_run
    = (λ chunk, {| text := GenAI.text chunk; sources := [] |}) <$> cs'
  ∧ (∀ label e,
       (ConsoleError label e ∉ added_events s (final chat_run))
       ∧ (ConsoleError label e ∉ added_events s (final deep_dive_run))).
Proof.
  intros Hclient Hcreate Hsend Hgen chat_run deep_dive_run.
  subst chat_run deep_dive_run.
  destruct (getAIClient_quiet s) as (evs0 & Htrace & Hquiet).
  flow_cases. rewrite Hclient, Hcreate, Hsend, Hgen. simpl.
  unfold stream_elements, stream_events. simpl. rewrite !app_nil_r.
  split; [done|]. split.
  { rewrite <- list_fmap_compose. done. }
  split; [done|].
  intros label e.
  rewrite !(added_events_add_trace s _ evs0) by done.
  split; intros Hin; apply elem_of_app in Hin as [Hin|Hin];
    try (by apply (Hquiet label e));
    repeat (apply elem_of_cons in Hin as [Hin|Hin]; [done|]);
    by apply not_elem_of_nil in Hin.
Qed.

Lemma streams_closing_normally_witness :
  let p := streaming [cited "Allyship" []; cited " is" []] None in
  let chat_run :=
    getChatResponseStream "system prompt" p [greeting; question] "More?"
      stored_key in
  let deep_dive_run :=
    getDeepDiveResponseStream "system prompt" p "More?" None stored_key in
  yielded chat_run
  = [ {| text := "Allyship"; sources := [] |};
      {| text := " is"; sources := [] |} ]
  ∧ yielded deep_dive_run
    = [ {| text := "Allyship"; sources := [] |};
        {| text := " is"; sources := [] |} ].
Proof.
  destruct (streams_closing_normally "system prompt"
              (streaming [cited "Allyship" []; cited " is" []] None)
              [greeting; question] "More?" None stored_key
              {| GenAI.apiKey := "k-123" |}
              {| GenAI.chat_client := {| GenAI.apiKey := "k-123" |};
                 GenAI.chat_parameters :=
                   chat_parameters "system prompt" [greeting; question] |}
              [cited "Allyship" []; cited " is" []]
              [cited "Allyship" []; cited " is" []]
              eq_refl eq_refl eq_refl eq_refl)
    as (Hchat & _ & Hdeep & _).
  split; assumption.
Defined.

(** X12: a run that failed for lack of a key does not poison the
    cache: once the application has stored a non-empty key, the next
    client access after either flow makes a client from that key. *)
Theorem key_stored_after_failure (SYSTEM_PROMPT : string) (provider : Provider)
    (history : list Message) (newMessage : string) (file : option File)
    (s : State) (key : string) :
  ai s = None →
  truthy (process_env s !! "API_KEY") = false →
  truthy (localStorage s !! "GEMINI_API_KEY") = false →
  key ≠ "" →
  let after_chat :=
    final (getChatResponseStream SYSTEM_PROMPT provider history newMessage s) in
  let after_deep_dive :=
    final (getDeepDiveResponseStream SYSTEM_PROMPT provider newMessage file s) in
  result (getAIClient (store_key key after_chat))
  = inr {| GenAI.apiKey := key |}
  ∧ result (getAIClient (store_key key after_deep_dive))
    = inr {| GenAI.apiKey := key |}.
Proof.
  intros Hai Henv Hls Hkey after_chat after_deep_dive.
  subst after_chat after_deep_dive.
  assert (Hcred : truthy (credential s) = false).
  { unfold credential, js_or. by rewrite Henv. }
  assert (Hretry : ∀ evs,
            result (getAIClient (store_key key (add_trace evs s)))
            = inr {| GenAI.apiKey := key |}).
  { intros evs.
    rewrite (getAIClient_resolved _ key); [done|done| |done].
    unfold credential, js_or, store_key, add_trace. simpl.
    rewrite Henv. apply lookup_insert_eq. }
  flow_cases. rewrite (getAIClient_missing s) by done. simpl.
  rewrite !add_trace_app. split; apply Hretry.
Qed.

Lemma key_stored_after_failure_witness :
  result
    (getAIClient
       (store_key "k-456"
          (final (getChatResponseStream "system prompt" (streaming [] None)
                    [greeting; question] "Hello" no_credentials))))
  = inr {| GenAI.apiKey := "k-456" |}
  ∧ result
      (getAIClient
         (store_key "k-456"
            (final (getDeepDiveResponseStream "system prompt"
                      (streaming [] None) "Hello" None no_credentials))))
    = inr {| GenAI.apiKey := "k-456" |}.
Proof.
  apply (key_stored_after_failure "system prompt" (streaming [] None)
           [greeting; question] "Hello" None no_credentials "k-456");
    [reflexivity|reflexivity|reflexivity|discriminate].
Defined.

(** X13: a flow that obtained the client leaves it cached: after the
    run, whatever the provider did, the accessor returns the same client
    straight from [ai], without reading any credential source. *)
Theorem flows_keep_client_cached (SYSTEM_PROMPT : string) (provider : Provider)
    (history : list Message) (newMessage : string) (file : option File)
    (s : State) (client : GenAI.GoogleGenAI) :
  result (getAIClient s) = inr client →
  let after_chat :=
    final (getChatResponseStream SYSTEM_PROMPT provider history newMessage s) in
  let after_deep_dive :=
    final (getDeepDiveResponseStream SYSTEM_PROMPT provider newMessage file s) in
  getAIClient after_chat
  = {| yielded := []; result := inr client; final := after_chat |}
  ∧ getAIClient after_deep_dive
    = {| yielded := []; result := inr client; final := after_deep_dive |}.
Proof.
  intros Hclient after_chat after_deep_dive. subst after_chat after_deep_dive.
  pose proof (getAIClient_caches s client Hclient) as Hai.
  destruct (getChatResponseStream_final SYSTEM_PROMPT provider history
              newMessage s) as (evs & -> & _).
  destruct (getDeepDiveResponseStream_final SYSTEM_PROMPT provider newMessage
              file s) as (evs' & -> & _).
  split; by apply getAIClient_cached.
Qed.

Lemma flows_keep_client_cached_witness :
  let after_chat :=
    final (getChatResponseStream "system prompt"
             (refusing (ProviderError "503")) [greeting; question] "Hello"
             stored_key) in
  getAIClient after_chat
  = {| yielded := []; result := inr {| GenAI.apiKey := "k-123" |};
       final := after_chat |}.
Proof.
  apply (flows_keep_client_cached "system prompt"
           (refusing (ProviderError "503")) [greeting; question] "Hello" None
           stored_key {| GenAI.apiKey := "k-123" |}).
  reflexivity.
Defined.

(** X14: every source of every element the conversational flow yields,
    whatever the provider sends, has a URI and a title, both non-empty. *)
Theorem chat_sources_always_well_cited (SYSTEM_PROMPT : string)
    (provider : Provider) (history : list Message) (newMessage : string)
    (s : State) :
  Forall (λ el, Forall well_cited (sources el))
    (yielded (getChatResponseStream SYSTEM_PROMPT provider history
                newMessage s)).
Proof.
  assert (Hchunk : ∀ chunk, Forall well_cited (chunk_sources chunk)).
  { intros chunk. rewrite chunk_sources_spec.
    apply Forall_fmap, Forall_forall. intros g [Hg _]%list_elem_of_filter.
    unfold has_uri_and_title in Hg. unfold well_cited, source_of. simpl.
    destruct (GenAI.uri (GenAI.web g)) as [u|]; [|done].
    destruct (GenAI.title (GenAI.web g)) as [t|]; [|done].
    exists u, t. tauto. }
  assert (Hplaceholder : Forall (λ el, Forall well_cited (sources el))
                           [chat_placeholder]).
  { repeat constructor. }
  flow_cases.
  destruct (result (getAIClient s)) as [e|client]; [done|].
  destruct (chats_create _ _ _) as [e|chat]; [done|].
  destruct (sendMessageStream _ _ _) as [e|stream]; [done|]. simpl.
  unfold stream_elements. apply Forall_app. split.
  - apply Forall_fmap, Forall_forall. intros chunk _. apply Hchunk.
  - destruct (failure stream); [done|constructor].
Qed.

(** X15: a chunk that carries no citation metadata has no sources:
    that is so when it has no candidates, an empty list of candidates, a
    first candidate without grounding metadata, or grounding metadata
    without chunks.  Only the first candidate is looked at. *)
Theorem chunk_sources_without_metadata (chunk : GenAI.GenerateContentResponse) :
  GenAI.candidates chunk = None
  ∨ GenAI.candidates chunk = Some []
  ∨ (∃ c others, GenAI.candidates chunk = Some (c :: others)
       ∧ (GenAI.groundingMetadata c = None
          ∨ GenAI.groundingMetadata c
            = Some {| GenAI.groundingChunks := None |})) →
  chunk_sources chunk = [].
Proof.
  unfold chunk_sources.
  intros [-> | [-> | (c & others & -> & [Hmd | Hmd])]]; simpl;
    try done; by rewrite Hmd.
Qed.

Lemma chunk_sources_without_metadata_witness :
  chunk_sources
    {| GenAI.text := "Allyship";
       GenAI.candidates :=
         Some [ {| GenAI.groundingMetadata := None |};
                {| GenAI.groundingMetadata :=
                     Some {| GenAI.groundingChunks :=
                               Some [web_chunk (Some "https://a.example")
                                       (Some "A")] |} |} ] |}
  = [].
Proof.
  apply chunk_sources_without_metadata. right. right.
  eexists _, _. split; [reflexivity|]. left. reflexivity.
Defined.

(** X16: whatever the message and the file, the deep-dive request has
    exactly one text part, it comes last, and its text is never empty: it
    is the message when there is one, the default prompt otherwise.  The
    only other part is the file's payload, when a file is given. *)
Theorem deep_dive_text_part_never_empty (newMessage : string)
    (file : option File) :
  ∃ t,
    last (userParts newMessage file) = Some (TextPart t)
    ∧ t ≠ ""
    ∧ (newMessage ≠ "" → t = newMessage)
    ∧ List.filter is_text_part (userParts newMessage file) = [TextPart t]
    ∧ length (userParts newMessage file)
      = match file with Some _ => 2 | None => 1 end.
Proof.
  unfold userParts.
  exists (if bool_decide (newMessage = "") then default_prompt else newMessage).
  split; [by destruct file|].
  split.
  { destruct (bool_decide (newMessage = "")) eqn:Hempty; [done|].
    by apply bool_decide_eq_false in Hempty. }
  split.
  { intros Hne. by rewrite bool_decide_eq_false_2. }
  split; by destruct file.
Qed.

Lemma no_console_error_filter (evs : list Event) :
  (∀ label e, ConsoleError label e ∉ evs) →
  List.filter is_console_error evs = [].
Proof.
  induction evs as [|ev evs IH]; [done|]. intros Hnone. simpl.
  rewrite IH by (intros label e Hin; apply (Hnone label e); by right).
  destruct ev; try done. exfalso. eapply Hnone. by left.
Qed.

(** With the file already read, failures are signalled in the output:
    each flow returns normally and logs at most one error, and when it
    logs one the last element it yields is its placeholder. *)
Lemma flows_in_band (SYSTEM_PROMPT : string)
    (provider : Provider) (history : list Message) (newMessage : string)
    (file : option File) (s : State) :
  let chat_run :=
    getChatResponseStream SYSTEM_PROMPT provider history newMessage s in
  let deep_dive_run :=
    getDeepDiveResponseStream SYSTEM_PROMPT provider newMessage file s in
  result chat_run = inr ()
  ∧ (List.filter is_console_error (added_events s (final chat_run)) = []
     ∨ ∃ e, List.filter is_console_error (added_events s (final chat_run))
            = [ConsoleError "Error getting chat response:" e]
            ∧ last (yielded chat_run) = Some chat_placeholder)
  ∧ result deep_dive_run = inr ()
  ∧ (List.filter is_console_error (added_events s (final deep_dive_run)) = []
     ∨ ∃ e, List.filter is_console_error
              (added_events s (final deep_dive_run))
            = [ConsoleError "Error getting deep dive response:" e]
            ∧ last (yielded deep_dive_run) = Some deep_dive_placeholder).
Proof.
  intros chat_run deep_dive_run. subst chat_run deep_dive_run.
  destruct (getAIClient_quiet s) as (evs0 & Htrace & Hquiet).
  apply no_console_error_filter in Hquiet.
  flow_cases.
  destruct (result (getAIClient s)) as [e|client];
    [|destruct (chats_create _ _ _) as [e|chat];
      [|destruct (sendMessageStream _ _ _) as [e|[cs [e|]]]];
      (destruct (generateContentStream _ _ _) as [e'|[cs' [e'|]]])];
    cbn [final yielded result];
    rewrite !(added_events_add_trace s _ evs0) by done;
    rewrite !List.filter_app, Hquiet; simpl;
    unfold stream_elements; simpl; rewrite ?last_snoc;
    repeat split; eauto.
Qed.


(** X18: a provider failure while the request is set up gives the
    placeholder alone and stops the flow there: when [chats.create]
    throws, [sendMessageStream] is never called; when
    [sendMessageStream] or [generateContentStream] rejects, no chunk is
    awaited.  The flow returns normally in each case. *)
Theorem setup_failure_stops_the_flow (SYSTEM_PROMPT : string)
    (provider : Provider) (history : list Message) (newMessage : string)
    (file : option File) (s : State) (client : GenAI.GoogleGenAI) (e : exn) :
  result (getAIClient s) = inr client →
  let params := chat_parameters SYSTEM_PROMPT history in
  let req := deep_dive_request SYSTEM_PROMPT newMessage file in
  let chat_run :=
    getChatResponseStream SYSTEM_PROMPT provider history newMessage s in
  let deep_dive_run :=
    getDeepDiveResponseStream SYSTEM_PROMPT provider newMessage file s in
  (chats_create provider client params = inl e →
   yielded chat_run = [chat_placeholder]
   ∧ result chat_run = inr ()
   ∧ List.filter is_provider_call (added_events s (final chat_run))
     = [ChatsCreate params])
  ∧ (∀ chat,
       chats_create provider client params = inr chat →
       sendMessageStream provider chat newMessage = inl e →
       yielded chat_run = [chat_placeholder]
       ∧ result chat_run = inr ()
       ∧ List.filter is_provider_call (added_events s (final chat_run))
         = [ChatsCreate params; SendMessageStream newMessage])
  ∧ (generateContentStream provider client req = inl e →
     yielded deep_dive_run = [deep_dive_placeholder]
     ∧ result deep_dive_run = inr ()
     ∧ List.filter is_provider_call (added_events s (final deep_dive_run))
       = [GenerateContentStream req]).
Proof.
  intros Hclient params req chat_run deep_dive_run.
  subst chat_run deep_dive_run.
  destruct (getAIClient_frame s) as (_ & _ & evs0 & Htrace & Hlocal).
  flow_cases. fold params req. rewrite Hclient.
  split; [|split].
  - intros ->. cbn [final yielded result].
    rewrite (added_events_add_trace s _ evs0) by done.
    by rewrite List.filter_app, Hlocal.
  - intros chat -> ->. cbn [final yielded result].
    rewrite (added_events_add_trace s _ evs0) by done.
    by rewrite List.filter_app, Hlocal.
  - intros ->. cbn [final yielded result].
    rewrite (added_events_add_trace s _ evs0) by done.
    by rewrite List.filter_app, Hlocal.
Qed.

Lemma setup_failure_stops_the_flow_witness :
  let p := refusing (ProviderError "503") in
  let chat_run :=
    getChatResponseStream "system prompt" p [greeting; question] "Hello"
      stored_key in
  let deep_dive_run :=
    getDeepDiveResponseStream "system prompt" p "Hello" (Some sample_file)
      stored_key in
  (yielded chat_run = [chat_placeholder]
   ∧ result chat_run = inr ()
   ∧ List.filter is_provider_call (added_events stored_key (final chat_run))
     = [ChatsCreate (chat_parameters "system prompt" [greeting; question])])
  ∧ (yielded deep_dive_run = [deep_dive_placeholder]
     ∧ result deep_dive_run = inr ()
     ∧ List.filter is_provider_call
         (added_events stored_key (final deep_dive_run))
       = [GenerateContentStream
            (deep_dive_request "system prompt" "Hello" (Some sample_file))]).
Proof.
  destruct (setup_failure_stops_the_flow "system prompt"
              (refusing (ProviderError "503")) [greeting; question] "Hello"
              (Some sample_file) stored_key {| GenAI.apiKey := "k-123" |}
              (ProviderError "503") eq_refl)
    as (Hcreate & _ & Hgenerate).
  split; [exact (Hcreate eq_refl)|exact (Hgenerate eq_refl)].
Defined.

Lemma buildGeminiHistory_drops_at_most_first_witness :
  ∃ c, buildGeminiHistory [greeting; question; answer] !! 0 = Some c
       ∧ parts c = [TextPart "What is allyship?"]
       ∧ (role c = "user" ↔ author question = USER).
Proof.
  destruct (buildGeminiHistory_drops_at_most_first [greeting; question; answer])
    as (k & [[-> _] | [_ Hne]] & _ & Hnth).
  - exact (Hnth 0 question eq_refl).
  - exfalso. apply Hne. reflexivity.
Defined.

Lemma deep_dive_text_part_never_empty_witness :
  ∃ t,
    last (userParts "Summarise section 2" (Some sample_file))
    = Some (TextPart t)
    ∧ t ≠ ""
    ∧ ("Summarise section 2" ≠ "" → t = "Summarise section 2")
    ∧ List.filter is_text_part
        (userParts "Summarise section 2" (Some sample_file))
      = [TextPart t]
    ∧ length (userParts "Summarise section 2" (Some sample_file)) = 2.
Proof.
  exact (deep_dive_text_part_never_empty "Summarise section 2"
           (Some sample_file)).
Defined.
